(** * Document type detection: a shallow embedding of [src/detection]

    The development follows the layout of the Python package:
    [models.py] (records), [config.py] (static catalog),
    [document_service.py] (catalog accessor) and [file_detector.py]
    (the detector), and then states the properties of the detector.

    Conventions of the embedding.
    - Python [str] is [string] (for text outside ASCII, its UTF-8 bytes);
      [Optional[T]] is [option T], [None] being [None]; a [dict] with string
      keys is a [gmap string _].  [str.lower] and [repr] are Python's own,
      Unicode-aware, functions: the development takes them as the interface
      [Py.Str] and states the three facts it uses of them as [Py.StrLaws];
      [Py.ascii_str] implements them on ASCII text for the examples.
    - Python [float] is modelled by exact rationals [Q].  The floats of this
      program are decimal literals (the confidences [0.0 .. 0.9], [1.0]), one
      sum of two of them, and file sizes divided by [1024 * 1024]; they are
      only compared against literals.  The lemmas on [Binary64] at the end
      check, on IEEE doubles, the comparisons and the sums of the confidence
      literals that the rational model relies on.  [round(x, 2)] returns the
      exact value of the double Python returns.  The products and quotients
      of the time and memory estimates are exact, where Python rounds each to
      a double, so that a printed number of seconds can differ by one from
      Python's above 5 MB; what is stated of these estimates holds of the
      doubles too (a size factor of exactly 1, monotonicity).
    - Exceptions are explicit: a computation yields [Returned v] or
      [Raised e]; [try ... except Exception] is [try_except].  Every call
      that can fail, [Path.exists] included, answers with an [outcome].
    - Calls that leave the detector (filesystem, sniffing libraries,
      [DocumentService]) are recorded, in order, in a trace of events. *)

From Stdlib Require Import ZArith QArith String Ascii List Lia Lqa.
From Stdlib Require Import DecimalString Floats Uint63.
From stdpp Require Import base option gmap strings.

Local Open Scope string_scope.
Local Open Scope Z_scope.

(** ** IEEE doubles *)

Module Binary64.
(** The double a decimal literal, or a quotient of two integers, denotes:
    the correctly rounded quotient. *)
Definition of_Q (q : Q) : float :=
  (PrimFloat.of_uint63 (Uint63.of_Z (Qnum q))
   / PrimFloat.of_uint63 (Uint63.of_Z (QDen q)))%float.

(** The exact value of a finite double. *)
Definition to_Q (x : float) : Q :=
  match Prim2SF x with
  | S754_finite negative m e =>
      let v := if negative then Z.neg m else Z.pos m in
      if 0 <=? e then inject_Z (v * 2 ^ e)
      else Qmake v (Pos.pow 2 (Z.to_pos (- e)))
  | _ => 0%Q
  end.

Definition ltb (x y : float) : bool := PrimFloat.ltb x y.
Definition gtb (x y : float) : bool := PrimFloat.ltb y x.
Definition min (a b : float) : float := if PrimFloat.ltb b a then b else a.
End Binary64.

(** ** Python builtins used by the detector *)

Module Py.

(** [x < y] and [x > y] on floats. *)
Definition ltb (x y : Q) : bool := Qnum x * QDen y <? Qnum y * QDen x.
Definition gtb (x y : Q) : bool := ltb y x.

(** [min(a, b)] keeps its first argument unless the second is smaller;
    [max(a, b)] keeps its first argument unless the second is larger. *)
Definition min (a b : Q) : Q := if ltb b a then b else a.
Definition max (a b : Q) : Q := if gtb b a then b else a.

(** [int(x)]: truncation towards zero. *)
Definition int (x : Q) : Z := Z.quot (Qnum x) (QDen x).

(** Nearest integer, ties to the even one. *)
Definition round_half_even (x : Q) : Z :=
  let f := Qnum x / QDen x in
  match 2 * (Qnum x mod QDen x) ?= QDen x with
  | Lt => f
  | Gt => f + 1
  | Eq => if Z.even f then f else f + 1
  end.

(** [round(x, 2)] for [x >= 0]: the decimal with two places nearest to [x],
    ties to the even one, then the double nearest to that decimal, here with
    its exact value. *)
Definition round2 (x : Q) : Q :=
  Binary64.to_Q (Binary64.of_Q (Qmake (round_half_even (x * 100)) 100)).

(** [str(n)] for an integer. *)
Definition str_int (n : Z) : string := NilZero.string_of_int (Z.to_int n).

(** [s.lower()] and [repr(s)] on strings: Python's own functions. *)
Class Str := {
  lower : string -> string;
  repr : string -> string;
}.

(** Lower-casing of ASCII text: the letters [A] to [Z] and nothing else. *)
Definition lower_ascii (c : ascii) : ascii :=
  let n := nat_of_ascii c in
  if ((65 <=? n) && (n <=? 90))%nat then ascii_of_nat (n + 32) else c.

Fixpoint ascii_lower (s : string) : string :=
  match s with
  | EmptyString => EmptyString
  | String c s' => String (lower_ascii c) (ascii_lower s')
  end.

Fixpoint is_ascii (s : string) : bool :=
  match s with
  | EmptyString => true
  | String c s' => (nat_of_ascii c <? 128)%nat && is_ascii s'
  end.

(** What the development uses of [str.lower]: lower-casing twice is
    lower-casing once; on ASCII text it is [ascii_lower]; it keeps a leading
    dot. *)
Class StrLaws (S : Str) : Prop := {
  lower_idempotent : forall s, lower (lower s) = lower s;
  lower_ascii_text : forall s, is_ascii s = true -> lower s = ascii_lower s;
  lower_dot : forall s, exists r, lower (String "." s) = String "." r;
}.

(** [repr] of ASCII text: between apostrophes, or between double quotes
    when the text holds an apostrophe and no double quote; backslash, the
    enclosing quote, newline, carriage return and tab are escaped with a
    backslash, other control characters as [\xNN]. *)
Definition hex_digit (n : nat) : ascii :=
  ascii_of_nat (if (n <? 10)%nat then 48 + n else 87 + n).

Fixpoint contains (c : ascii) (s : string) : bool :=
  match s with
  | EmptyString => false
  | String a s' => Ascii.eqb a c || contains c s'
  end.

Fixpoint repr_body (quote : ascii) (s : string) : string :=
  match s with
  | EmptyString => EmptyString
  | String c s' =>
      let n := nat_of_ascii c in
      let escaped (e : ascii) := String "\" (String e EmptyString) in
      (if Ascii.eqb c "\" then escaped "\"%char
       else if Ascii.eqb c quote then escaped quote
       else if (n =? 10)%nat then escaped "n"%char
       else if (n =? 13)%nat then escaped "r"%char
       else if (n =? 9)%nat then escaped "t"%char
       else if (n <? 32)%nat || (n =? 127)%nat then
         String "\" (String "x" (String (hex_digit (n / 16))
                                   (String (hex_digit (n mod 16)) EmptyString)))
       else String c EmptyString)
      ++ repr_body quote s'
  end.

Definition double_quote : ascii := ascii_of_nat 34.

Definition ascii_repr (s : string) : string :=
  let quote : ascii :=
    if contains "'" s && negb (contains double_quote s)
    then double_quote else "'"%char in
  String quote (repr_body quote s ++ String quote EmptyString).

Definition ascii_str : Str := {| lower := ascii_lower; repr := ascii_repr |}.

(** Truth value of an [Optional[str]]: [None] and the empty string are
    false. *)
Definition truthy (o : option string) : bool :=
  match o with
  | Some s => negb (String.eqb s "")
  | None => false
  end.

(** [o or d] for an [Optional[str]]. *)
Definition or_else (o : option string) (d : string) : string :=
  match o with
  | Some s => if String.eqb s "" then d else s
  | None => d
  end.

End Py.

(** ** models.py *)

Module ComplexityLevel.
Inductive t := LOW | MEDIUM | HIGH.

Definition value (c : t) : string :=
  match c with LOW => "low" | MEDIUM => "medium" | HIGH => "high" end.
End ComplexityLevel.

Module DocumentType.
Record t := mk {
  extension : string;
  mime_type : string;
  description : string;
  parser_module : string;
  complexity : ComplexityLevel.t;
}.

(** The two field validators: the extension starts with a dot (and is
    stored lower-cased), the MIME type contains a slash. *)
Definition extension_must_start_with_dot `{Py.Str} (v : string)
  : option string :=
  match v with
  | String "." _ => Some (Py.lower v)
  | _ => None
  end.

Fixpoint contains_slash (v : string) : bool :=
  match v with
  | EmptyString => false
  | String c v' => Ascii.eqb c "/" || contains_slash v'
  end.

Definition mime_type_must_be_valid (v : string) : option string :=
  if contains_slash v then Some v else None.

(** Construction of a [DocumentType] from a config entry: [None] when a
    validator raises. *)
Definition validate `{Py.Str} (config : t) : option t :=
  match extension_must_start_with_dot (extension config),
        mime_type_must_be_valid (mime_type config) with
  | Some e, Some m =>
      Some (mk e m (description config) (parser_module config)
              (complexity config))
  | _, _ => None
  end.
End DocumentType.

Module FileInfo.
Record t := mk {
  path : string;
  name : string;
  stem : string;
  extension : string;
  size_bytes : Z;
  size_mb : Q;
  size_category : string;
}.
End FileInfo.

Module DetectionResult.
Record t := mk {
  method : string;
  detected_type : string;
  mime_type : string;
  description : string;
  confidence : Q;
  is_supported : bool;
  resolution : option string;
  extension_match : option bool;
}.

(** Attribute assignments on a [model_copy()]. *)
Definition set_confidence (c : Q) (r : t) : t :=
  mk (method r) (detected_type r) (mime_type r) (description r)
     c (is_supported r) (resolution r) (extension_match r).

Definition set_resolution (s : string) (r : t) : t :=
  mk (method r) (detected_type r) (mime_type r) (description r)
     (confidence r) (is_supported r) (Some s) (extension_match r).

Definition set_extension_match (b : bool) (r : t) : t :=
  mk (method r) (detected_type r) (mime_type r) (description r)
     (confidence r) (is_supported r) (resolution r) (Some b).
End DetectionResult.

Module ProcessingInfo.
Record t := mk {
  can_process : bool;
  recommended_parser : option string;
  complexity : option string;
  estimated_time : option string;
  memory_requirement : option string;
  reason : option string;
}.
End ProcessingInfo.

Module DocumentDetectionResult.
Record t := mk {
  file_info : option FileInfo.t;
  detection : option DetectionResult.t;
  processing : option ProcessingInfo.t;
  status : string;
  error : option string;
}.
End DocumentDetectionResult.

(** ** config.py *)

Definition SUPPORTED_EXTENSIONS : list (string * DocumentType.t) :=
  [ (".docx",
     DocumentType.mk ".docx"
       "application/vnd.openxmlformats-officedocument.wordprocessingml.document"
       "Microsoft Word Document" "python-docx" ComplexityLevel.MEDIUM);
    (".pdf",
     DocumentType.mk ".pdf" "application/pdf" "PDF Document" "pdfplumber"
       ComplexityLevel.HIGH);
    (".txt",
     DocumentType.mk ".txt" "text/plain" "Plain Text File" "built-in"
       ComplexityLevel.LOW);
    (".odt",
     DocumentType.mk ".odt" "application/vnd.oasis.opendocument.text"
       "OpenDocument Text" "odfpy" ComplexityLevel.MEDIUM) ].

(** The dict comprehensions insert the items in order, a later key
    replacing an earlier one.  Every entry of [SUPPORTED_EXTENSIONS] passes
    the validators unchanged ([SUPPORTED_EXTENSIONS_valid] below), so
    the [DocumentType] built from an entry is the entry itself. *)
Definition get_supported_types : gmap string DocumentType.t :=
  foldl (fun m '(ext, config) => <[ext := config]> m) ∅ SUPPORTED_EXTENSIONS.

Definition get_mime_to_extension_mapping : gmap string string :=
  foldl (fun m '(ext, config) => <[DocumentType.mime_type config := ext]> m)
    ∅ SUPPORTED_EXTENSIONS.

(** ** document_service.py *)

Module DocumentService.
Record t := mk {
  _supported_types : gmap string DocumentType.t;
  _mime_to_extension : gmap string string;
}.

(** [DocumentService()] *)
Definition init : t := mk get_supported_types get_mime_to_extension_mapping.

Definition is_supported `{Py.Str} (self : t) (extension : string) : bool :=
  bool_decide (is_Some (_supported_types self !! Py.lower extension)).

Definition get_document_type `{Py.Str} (self : t) (extension : string)
  : option DocumentType.t :=
  _supported_types self !! Py.lower extension.

(** The argument is [None] when the sniffer found nothing; [dict.get(None)]
    is [None]. *)
Definition get_extension_from_mime (self : t) (mime_type : option string)
  : option string :=
  match mime_type with
  | Some m => _mime_to_extension self !! m
  | None => None
  end.
End DocumentService.

(** ** Exceptions, events and the monad of the detector *)

(** A raised exception: its class and [str(e)]. *)
Record exn := Exception { exn_class : string; exn_str : string }.

Inductive outcome (A : Type) :=
| Returned (a : A)
| Raised (e : exn).
Arguments Returned {A} a.
Arguments Raised {A} e.

(** The calls that leave the detector. *)
Inductive event :=
| PathExists (p : string)
| PathStat (p : string)
| PathResolve (p : string)
| MagicFromFile (p : string)
| FiletypeGuess (p : string)
| MimetypesGuessType (p : string)
| ServiceIsSupported (extension : string)
| ServiceGetDocumentType (extension : string)
| ServiceGetExtensionFromMime (mime_type : option string).

(** What the detector sees of its surroundings: the import-time flags of
    [file_detector.py], [pathlib] on the path given, and the three sniffing
    libraries.  A path object is identified with its path string.
    Each call that can fail answers with an [outcome]: [Path.exists]
    turns a missing entry into [False] and lets other errors of the
    operating system through (a name that is too long, a directory that may
    not be searched).  [HAS_FILETYPE] is only read when [HAS_MAGIC] is
    false. *)
Record Env := {
  HAS_MAGIC : bool;
  HAS_FILETYPE : bool;
  Path_name : string -> string;
  Path_stem : string -> string;
  Path_suffix : string -> string;
  Path_exists : string -> outcome bool;
  Path_stat_st_size : string -> outcome Z;
  Path_resolve : string -> outcome string;
  magic_from_file : string -> outcome string;
  filetype_guess : string -> outcome (option string);
  mimetypes_guess_type : string -> outcome (option string);
}.

(** A computation extends the trace and returns or raises. *)
Definition M (A : Type) : Type := list event -> outcome A * list event.

#[global] Instance M_ret : MRet M := fun A a t => (Returned a, t).

#[global] Instance M_bind : MBind M := fun A B f m t =>
  match m t with
  | (Returned a, t') => f a t'
  | (Raised e, t') => (Raised e, t')
  end.

Definition raise {A} (e : exn) : M A := fun t => (Raised e, t).

(** An outside call: the event is recorded, the answer is the callee's. *)
Definition call {A} (ev : event) (answer : outcome A) : M A :=
  fun t => (answer, (t ++ [ev])%list).

(** [try: body except Exception as e: handler e] *)
Definition try_except {A} (body : M A) (handler : exn -> M A) : M A :=
  fun t =>
    match body t with
    | (Returned a, t') => (Returned a, t')
    | (Raised e, t') => handler e t'
    end.

(** Attribute access on an [Optional] object. *)
Definition getattr {A B} (o : option A) (field : A -> B) (name : string) : M B :=
  match o with
  | Some a => mret (field a)
  | None =>
      raise (Exception "AttributeError"
               ("'NoneType' object has no attribute '" ++ name ++ "'"))
  end.

(** Pydantic's check of a field declared [str]. *)
Definition pydantic_str (o : option string) : M string :=
  match o with
  | Some s => mret s
  | None => raise (Exception "ValidationError" "Input should be a valid string")
  end.

(** ** file_detector.py *)

Record DocumentTypeDetector := { document_service : DocumentService.t }.

Section Detector.

Context {L : Py.Str}.
Variable env : Env.
Variable self : DocumentTypeDetector.

(** Calls on [self.document_service]. *)
Definition service_is_supported (extension : string) : M bool :=
  call (ServiceIsSupported extension)
    (Returned (DocumentService.is_supported (document_service self) extension)).

Definition service_get_document_type (extension : string)
  : M (option DocumentType.t) :=
  call (ServiceGetDocumentType extension)
    (Returned
       (DocumentService.get_document_type (document_service self) extension)).

Definition service_get_extension_from_mime (mime_type : option string)
  : M (option string) :=
  call (ServiceGetExtensionFromMime mime_type)
    (Returned
       (DocumentService.get_extension_from_mime (document_service self)
          mime_type)).

(** *** Private helpers *)

Definition _categorize_file_size (size_bytes : Z) : string :=
  let size_mb := (inject_Z size_bytes / inject_Z (1024 * 1024))%Q in
  if Py.ltb size_mb 1 then "small"
  else if Py.ltb size_mb 10 then "medium"
  else if Py.ltb size_mb 50 then "large"
  else "very_large".

Definition _estimate_size_complexity (size_mb : Q) : string :=
  if Py.ltb size_mb 5 then "low"
  else if Py.ltb size_mb 20 then "medium"
  else "high".

Definition _max_complexity (complexity1 complexity2 : string) : string :=
  let order : gmap string Z :=
    list_to_map [("low", 1); ("medium", 2); ("high", 3)] in
  if default 0 (order !! complexity1) >=? default 0 (order !! complexity2)
  then complexity1
  else complexity2.

Definition _estimate_processing_time (complexity : string) (size_mb : Q)
  : string :=
  let base_times : gmap string Z :=
    list_to_map [("low", 1); ("medium", 5); ("high", 15)] in
  let base_time := default 10 (base_times !! complexity) in
  let size_factor := Py.max 1 (size_mb / 5) in
  let estimated_seconds := (inject_Z base_time * size_factor)%Q in
  if Py.ltb estimated_seconds 60
  then "~" ++ Py.str_int (Py.int estimated_seconds) ++ "s"
  else "~" ++ Py.str_int (Py.int (estimated_seconds / 60)) ++ "min".

Definition _estimate_memory_usage (file_type : string) (size_mb : Q) : string :=
  let memory_factors : gmap string Z :=
    list_to_map [(".txt", 2); (".docx", 4); (".pdf", 6); (".odt", 5)] in
  let factor := default 4 (memory_factors !! file_type) in
  let estimated_mb := (size_mb * inject_Z factor)%Q in
  if Py.ltb estimated_mb 100 then "low"
  else if Py.ltb estimated_mb 500 then "medium"
  else "high".

(** *** The pipeline steps *)

Definition _extract_file_info (path_obj : string) : M FileInfo.t :=
  size_bytes ← call (PathStat path_obj) (Path_stat_st_size env path_obj);
  let size_mb := Py.round2 (inject_Z size_bytes / inject_Z (1024 * 1024)) in
  resolved ← call (PathResolve path_obj) (Path_resolve env path_obj);
  mret (FileInfo.mk resolved (Path_name env path_obj) (Path_stem env path_obj)
          (Py.lower (Path_suffix env path_obj)) size_bytes size_mb
          (_categorize_file_size size_bytes)).

Definition _detect_by_extension (path_obj : string) : M DetectionResult.t :=
  let extension := Py.lower (Path_suffix env path_obj) in
  supported ← service_is_supported extension;
  if supported : bool then
    doc_type ← service_get_document_type extension;
    mime_type ← getattr doc_type DocumentType.mime_type "mime_type";
    description ← getattr doc_type DocumentType.description "description";
    mret (DetectionResult.mk "extension" extension mime_type description
            (7 # 10) true None None)
  else
    mret (DetectionResult.mk "extension" extension "unknown"
            "Type non supporté" (3 # 10) false None None).

(** The first part of the [try] block of [_detect_by_mime]: the sniffing
    method the import-time flags select, with its confidence. *)
Definition sniff (path_obj : string) : M (option string * Q) :=
  if HAS_MAGIC env then
    mime_type ← call (MagicFromFile path_obj) (magic_from_file env path_obj);
    mret (Some mime_type, 9 # 10)
  else if HAS_FILETYPE env then
    mime_type ← call (FiletypeGuess path_obj) (filetype_guess env path_obj);
    mret (mime_type, 8 # 10)
  else
    mime_type ← call (MimetypesGuessType path_obj)
                  (mimetypes_guess_type env path_obj);
    mret (mime_type, 6 # 10).

Definition _detect_by_mime (path_obj : string) : M DetectionResult.t :=
  try_except
    ('(mime_type, confidence) ← sniff path_obj;
     detected_ext ← service_get_extension_from_mime mime_type;
     if Py.truthy detected_ext then
       (* a non-empty string here *)
       let detected_ext := default "" detected_ext in
       doc_type ← service_get_document_type detected_ext;
       description ← getattr doc_type DocumentType.description "description";
       mime_type ← pydantic_str mime_type;
       mret (DetectionResult.mk "mime_content" detected_ext mime_type
               description confidence true None None)
     else
       mret (DetectionResult.mk "mime_content" "unknown"
               (Py.or_else mime_type "unknown") "Type non reconnu par type"
               (2 # 10) false None None))
    (fun e =>
       mret (DetectionResult.mk "mime_content" "unknown" "error"
               ("Erreur détection MIME: " ++ exn_str e) 0 false None None)).

Definition _resolve_detection_conflicts
  (ext_detection mime_detection : DetectionResult.t) : DetectionResult.t :=
  if Py.gtb (DetectionResult.confidence mime_detection) (7 # 10)
     && negb (String.eqb (DetectionResult.mime_type mime_detection) "error")
  then
    let ext_type := DetectionResult.detected_type ext_detection in
    let mime_type := DetectionResult.detected_type mime_detection in
    let '(confidence, resolution) :=
      if String.eqb ext_type mime_type
      then (Py.min 1 (DetectionResult.confidence ext_detection
                      + DetectionResult.confidence mime_detection)%Q,
            "coherent")
      else (DetectionResult.confidence mime_detection, "mime_priority") in
    DetectionResult.set_extension_match (String.eqb ext_type mime_type)
      (DetectionResult.set_resolution resolution
         (DetectionResult.set_confidence confidence mime_detection))
  else
    DetectionResult.set_resolution "extension_fallback" ext_detection.

Definition _generate_processing_info
  (detection : DetectionResult.t) (file_info : FileInfo.t)
  : M ProcessingInfo.t :=
  let detected_type := DetectionResult.detected_type detection in
  let is_supported := DetectionResult.is_supported detection in
  supported ←
    (if is_supported then service_is_supported detected_type else mret false);
  if supported : bool then
    doc_type ← service_get_document_type detected_type;
    doc_complexity ← getattr doc_type DocumentType.complexity "complexity";
    let size_complexity :=
      _estimate_size_complexity (FileInfo.size_mb file_info) in
    let overall_complexity :=
      _max_complexity (ComplexityLevel.value doc_complexity) size_complexity in
    parser_module ← getattr doc_type DocumentType.parser_module "parser_module";
    mret (ProcessingInfo.mk true (Some parser_module) (Some overall_complexity)
            (Some (_estimate_processing_time overall_complexity
                     (FileInfo.size_mb file_info)))
            (Some (_estimate_memory_usage detected_type
                     (FileInfo.size_mb file_info)))
            None)
  else
    mret (ProcessingInfo.mk false None None None None
            (Some "Type de fichier non supporté")).

(** *** The entry point *)

(** The [try] block of [detect_document_type]. *)
Definition detect_document_type_try (path_obj : string)
  : M DocumentDetectionResult.t :=
  file_info ← _extract_file_info path_obj;
  extension_detection ← _detect_by_extension path_obj;
  mime_detection ← _detect_by_mime path_obj;
  let final_detection :=
    _resolve_detection_conflicts extension_detection mime_detection in
  processing_info ← _generate_processing_info final_detection file_info;
  mret (DocumentDetectionResult.mk (Some file_info) (Some final_detection)
          (Some processing_info) "success" None).

Definition detect_document_type (file_path : string)
  : M DocumentDetectionResult.t :=
  let path_obj := file_path in
  found ← call (PathExists path_obj) (Path_exists env path_obj);
  if negb found then
    mret (DocumentDetectionResult.mk None None None "error"
            (Some ("Fichier non trouvé:" ++ file_path)))
  else
    try_except (detect_document_type_try path_obj)
      (fun e =>
         mret (DocumentDetectionResult.mk None None None "error"
                 (Some ("Erreur lors de l'analyse: " ++ exn_str e)))).

End Detector.

(** Running a computation from the empty trace. *)
Definition run {A} (m : M A) : outcome A * list event := m [].

(** ** The properties read off the specification *)

(** The size-derived complexity and the ordinal scale LOW < MEDIUM < HIGH,
    as the specification words them. *)
Definition complexity_rank (c : ComplexityLevel.t) : nat :=
  match c with
  | ComplexityLevel.LOW => 0
  | ComplexityLevel.MEDIUM => 1
  | ComplexityLevel.HIGH => 2
  end.

Definition complexity_of_rank (n : nat) : ComplexityLevel.t :=
  match n with
  | O => ComplexityLevel.LOW
  | S O => ComplexityLevel.MEDIUM
  | _ => ComplexityLevel.HIGH
  end.

Definition ordinal_max (a b : ComplexityLevel.t) : ComplexityLevel.t :=
  complexity_of_rank (Nat.max (complexity_rank a) (complexity_rank b)).

Definition size_derived_complexity (size_mb : Q) : ComplexityLevel.t :=
  if negb (Qle_bool 5 size_mb) then ComplexityLevel.LOW
  else if negb (Qle_bool 20 size_mb) then ComplexityLevel.MEDIUM
  else ComplexityLevel.HIGH.

(** The size buckets with their cut points in bytes. *)
Definition MB : Z := 1024 * 1024.

Definition size_bucket (size_bytes : Z) : string :=
  if size_bytes <? 1 * MB then "small"
  else if size_bytes <? 10 * MB then "medium"
  else if size_bytes <? 50 * MB then "large"
  else "very_large".

(** *** A small world for the examples

    [pathlib]'s name parts on POSIX paths: the name is what follows the last
    slash; the suffix starts at the last dot of the name, unless that dot is
    its first or its last character. *)
Fixpoint rsplit (c : ascii) (s : string) : option (string * string) :=
  match s with
  | EmptyString => None
  | String a s' =>
      match rsplit c s' with
      | Some (l, r) => Some (String a l, r)
      | None => if Ascii.eqb a c then Some (EmptyString, s') else None
      end
  end.

Definition posix_name (p : string) : string :=
  match rsplit "/" p with Some (_, n) => n | None => p end.

Definition posix_suffix (p : string) : string :=
  match rsplit "." (posix_name p) with
  | Some (EmptyString, _) | Some (_, EmptyString) | None => ""
  | Some (_, e) => "." ++ e
  end.

Definition posix_stem (p : string) : string :=
  match rsplit "." (posix_name p) with
  | Some (EmptyString, _) | Some (_, EmptyString) | None => posix_name p
  | Some (s, _) => s
  end.

(** Every path exists, unless its name starts with [missing], and holds
    20971 bytes of plain text; a file whose name starts with [vanished] is
    gone by the time it is measured; [python-magic] is installed and fails
    on files whose name starts with [locked].  As on Linux, the existence
    test fails on a name of more than 255 bytes and below a directory that
    may not be searched, here [/private]. *)
Definition example_env : Env := {|
  HAS_MAGIC := true;
  HAS_FILETYPE := false;
  Path_name := posix_name;
  Path_stem := posix_stem;
  Path_suffix := posix_suffix;
  Path_exists := fun p =>
    if (255 <? String.length (posix_name p))%nat
    then Raised (Exception "OSError"
                   ("[Errno 36] File name too long: '" ++ p ++ "'"))
    else if String.prefix "/private/" p
    then Raised (Exception "PermissionError"
                   ("[Errno 13] Permission denied: '" ++ p ++ "'"))
    else Returned (negb (String.prefix "missing" (posix_name p)));
  Path_stat_st_size := fun p =>
    if String.prefix "vanished" (posix_name p)
    then Raised (Exception "FileNotFoundError"
                   "[Errno 2] No such file or directory")
    else Returned 20971;
  Path_resolve := fun p => Returned ("/data/" ++ p);
  magic_from_file := fun p =>
    if String.prefix "locked" (posix_name p)
    then Raised (Exception "PermissionError" "[Errno 13] Permission denied")
    else Returned "text/plain";
  filetype_guess := fun _ => Returned None;
  mimetypes_guess_type := fun _ => Returned None;
|}.

Definition example_detector : DocumentTypeDetector :=
  {| document_service := DocumentService.init |}.

(** A name of 256 letters: no such file exists, and none can. *)
Definition long_name : string := string_of_list_ascii (repeat "a"%char 256).

(** *** Vocabulary of the statements *)

(** The classification of a sniffing fault. *)
Definition sniffing_fault (e : exn) : DetectionResult.t :=
  DetectionResult.mk "mime_content" "unknown" "error"
    ("Erreur détection MIME: " ++ exn_str e) 0 false None None.

(** The answer and the event of the sniffing library the flags select. *)
Definition sniffer_answer (env : Env) (path_obj : string)
  : outcome (option string) * event :=
  if HAS_MAGIC env then
    (match magic_from_file env path_obj with
     | Returned m => Returned (Some m)
     | Raised e => Raised e
     end, MagicFromFile path_obj)
  else if HAS_FILETYPE env then
    (filetype_guess env path_obj, FiletypeGuess path_obj)
  else (mimetypes_guess_type env path_obj, MimetypesGuessType path_obj).

Definition sniffer_confidence (env : Env) : Q :=
  if HAS_MAGIC env then 9 # 10 else if HAS_FILETYPE env then 8 # 10
  else 6 # 10.

(** What the content classifier can return: a catalog type with the
    confidence of the sniffing method, the unrecognised classification
    (confidence 0.2), or the classification of a fault (confidence 0). *)
Inductive content_classification `{L : Py.Str} (env : Env)
  (service : DocumentService.t)
  : DetectionResult.t -> Prop :=
| content_recognised mime_type detected_ext doc_type :
    DocumentService.get_extension_from_mime service (Some mime_type)
    = Some detected_ext ->
    DocumentService.get_document_type service detected_ext = Some doc_type ->
    content_classification env service
      (DetectionResult.mk "mime_content" detected_ext mime_type
         (DocumentType.description doc_type) (sniffer_confidence env) true
         None None)
| content_unrecognised mime_type :
    content_classification env service
      (DetectionResult.mk "mime_content" "unknown" mime_type
         "Type non reconnu par type" (2 # 10) false None None)
| content_fault e :
    content_classification env service (sniffing_fault e).

(** The renamed text file of the specification's scenario: extension
    [.docx], content sniffed as [text/plain] with confidence 0.9. *)
Definition renamed_ext : DetectionResult.t :=
  DetectionResult.mk "extension" ".docx"
    "application/vnd.openxmlformats-officedocument.wordprocessingml.document"
    "Microsoft Word Document" (7 # 10) true None None.

Definition renamed_mime : DetectionResult.t :=
  DetectionResult.mk "mime_content" ".txt" "text/plain" "Plain Text File"
    (9 # 10) true None None.


(** The two classifications of a plain text file named [notes.txt] in the
    example world. *)
Definition notes_ext : DetectionResult.t :=
  DetectionResult.mk "extension" ".txt" "text/plain" "Plain Text File"
    (7 # 10) true None None.

Definition notes_mime : DetectionResult.t :=
  DetectionResult.mk "mime_content" ".txt" "text/plain" "Plain Text File"
    (9 # 10) true None None.

(** The estimate for an unsupported type. *)
Definition unsupported_processing : ProcessingInfo.t :=
  ProcessingInfo.mk false None None None None
    (Some "Type de fichier non supporté").

(** The final classification of a file with the unknown extension [.xyz]
    whose content could not be sniffed, and the facts of a small file. *)
Definition xyz_detection : DetectionResult.t :=
  DetectionResult.mk "extension" ".xyz" "unknown" "Type non supporté"
    (3 # 10) false (Some "extension_fallback") None.

Definition small_file_info : FileInfo.t :=
  FileInfo.mk "/data/notes.xyz" "notes.xyz" "notes" ".xyz" 20971 (2 # 100)
    "small".

(** The outcome of a detection that stopped on an error. *)
Definition error_outcome (message : string) : DocumentDetectionResult.t :=
  DocumentDetectionResult.mk None None None "error" (Some message).

(** The confidences the two classifiers produce, and the byte counts next
    to the cut points of the size buckets. *)
Definition extension_confidences : list Q := [7 # 10; 3 # 10].
Definition content_confidences : list Q :=
  [9 # 10; 8 # 10; 6 # 10; 2 # 10; 0%Q].
Definition sizes_at_cut_points : list Z :=
  [0; 1 * MB - 1; 1 * MB; 10 * MB - 1; 10 * MB; 50 * MB - 1; 50 * MB].

(** *** The mutations of the catalog accessor

    [add_document_type] and [remove_document_type] of [DocumentService]
    update the object in place; here they return the service after the
    call.  [remove_document_type] also returns what the call returned or
    raised: [del d[k]] raises [KeyError] on a missing key, the message being
    [repr(k)]. *)
Definition add_document_type (self : DocumentService.t)
  (doc_type : DocumentType.t) : DocumentService.t :=
  DocumentService.mk
    (<[DocumentType.extension doc_type := doc_type]>
       (DocumentService._supported_types self))
    (<[DocumentType.mime_type doc_type := DocumentType.extension doc_type]>
       (DocumentService._mime_to_extension self)).

Definition remove_document_type `{Py.Str} (self : DocumentService.t)
  (extension : string) : DocumentService.t * outcome bool :=
  let extension := Py.lower extension in
  match DocumentService._supported_types self !! extension with
  | Some doc_type =>
      let supported := delete extension (DocumentService._supported_types self) in
      let mime_type := DocumentType.mime_type doc_type in
      match DocumentService._mime_to_extension self !! mime_type with
      | Some _ =>
          (DocumentService.mk supported
             (delete mime_type (DocumentService._mime_to_extension self)),
           Returned true)
      | None =>
          (DocumentService.mk supported
             (DocumentService._mime_to_extension self),
           Raised (Exception "KeyError" (Py.repr mime_type)))
      end
  | None => (self, Returned false)
  end.

(** Two descriptors for Markdown files that share one MIME type. *)
Definition md_type : DocumentType.t :=
  DocumentType.mk ".md" "text/markdown" "Markdown" "markdown"
    ComplexityLevel.LOW.

Definition markdown_type : DocumentType.t :=
  DocumentType.mk ".markdown" "text/markdown" "Markdown" "markdown"
    ComplexityLevel.LOW.

(** The memory classes, in order. *)
Definition memory_rank (class : string) : nat :=
  if String.eqb class "low" then 0
  else if String.eqb class "medium" then 1
  else 2.

(** A world like [example_env] with no sniffing library installed:
    [mimetypes] guesses the type from the file name. *)
Definition mimetypes_env : Env := {|
  HAS_MAGIC := false;
  HAS_FILETYPE := false;
  Path_name := posix_name;
  Path_stem := posix_stem;
  Path_suffix := posix_suffix;
  Path_exists := fun _ => Returned true;
  Path_stat_st_size := fun _ => Returned 20971;
  Path_resolve := fun p => Returned ("/data/" ++ p);
  magic_from_file := fun _ => Returned "";
  filetype_guess := fun _ => Returned None;
  mimetypes_guess_type := fun p =>
    Returned (if String.eqb (posix_suffix p) ".txt"
              then Some "text/plain" else None);
|}.

(** A world where the canonical path cannot be computed. *)
Definition looping_env : Env := {|
  HAS_MAGIC := true;
  HAS_FILETYPE := false;
  Path_name := posix_name;
  Path_stem := posix_stem;
  Path_suffix := posix_suffix;
  Path_exists := fun _ => Returned true;
  Path_stat_st_size := fun _ => Returned 20971;
  Path_resolve := fun _ =>
    Raised (Exception "RuntimeError" "Symlink loop");
  magic_from_file := fun _ => Returned "text/plain";
  filetype_guess := fun _ => Returned None;
  mimetypes_guess_type := fun _ => Returned None;
|}.

(** A second descriptor for [.md], under another MIME type. *)
Definition md_type_x : DocumentType.t :=
  DocumentType.mk ".md" "text/x-markdown" "Markdown" "markdown"
    ComplexityLevel.LOW.

(** The catalog after [.md] was registered under two MIME types in turn and
    then removed: the first MIME type still maps to [.md]. *)
Definition dangling_service : DocumentService.t :=
  fst (remove_document_type (H := Py.ascii_str)
         (add_document_type (add_document_type DocumentService.init md_type)
            md_type_x)
         ".md").

(** A world where [python-magic] sniffs Markdown. *)
Definition markdown_env : Env := {|
  HAS_MAGIC := true;
  HAS_FILETYPE := false;
  Path_name := posix_name;
  Path_stem := posix_stem;
  Path_suffix := posix_suffix;
  Path_exists := fun _ => Returned true;
  Path_stat_st_size := fun _ => Returned 20971;
  Path_resolve := fun p => Returned ("/data/" ++ p);
  magic_from_file := fun _ => Returned "text/markdown";
  filetype_guess := fun _ => Returned None;
  mimetypes_guess_type := fun _ => Returned None;
|}.

Section Properties.

Context {PyStr : Py.Str}.

(** *** Comparisons of the numeric model *)

Lemma ltb_lt (x y : Q) : Py.ltb x y = true <-> (x < y)%Q.
Proof. unfold Py.ltb, Qlt. apply Z.ltb_lt. Qed.

Lemma ltb_ge (x y : Q) : Py.ltb x y = false <-> (y <= x)%Q.
Proof. unfold Py.ltb, Qle. apply Z.ltb_ge. Qed.

Lemma gtb_gt (x y : Q) : Py.gtb x y = true <-> (y < x)%Q.
Proof. apply ltb_lt. Qed.

Lemma gtb_le (x y : Q) : Py.gtb x y = false <-> (x <= y)%Q.
Proof. apply ltb_ge. Qed.

(** Dividing a byte count by [1024 * 1024] and comparing with a whole number
    of megabytes is comparing the byte count with that many bytes. *)
Lemma ltb_megabytes (size_bytes k : Z) :
  Py.ltb (inject_Z size_bytes / inject_Z (1024 * 1024)) (inject_Z k)
  = (size_bytes <? k * MB).
Proof.
  unfold Py.ltb, Qdiv, Qmult, Qinv, inject_Z, MB. cbn [Qnum Qden].
  change (1024 * 1024) with 1048576.
  cbn [Qnum Qden Z.mul Pos.mul].
  destruct (Z.ltb_spec size_bytes (k * 1048576)) as [H | H].
  - apply Z.ltb_lt. lia.
  - apply Z.ltb_ge. lia.
Qed.

(** *** The conflict resolver *)

(** The three outcomes of the resolver, field by field. *)
Lemma resolve_gate_closed (ext_detection mime_detection : DetectionResult.t) :
  Py.gtb (DetectionResult.confidence mime_detection) (7 # 10) = false
  \/ DetectionResult.mime_type mime_detection = "error" ->
  _resolve_detection_conflicts ext_detection mime_detection
  = DetectionResult.set_resolution "extension_fallback" ext_detection.
Proof.
  intros [H | H]; unfold _resolve_detection_conflicts.
  - now rewrite H.
  - rewrite H, String.eqb_refl. now rewrite andb_false_r.
Qed.

Lemma resolve_gate_open (ext_detection mime_detection : DetectionResult.t) :
  Py.gtb (DetectionResult.confidence mime_detection) (7 # 10) = true ->
  DetectionResult.mime_type mime_detection <> "error" ->
  _resolve_detection_conflicts ext_detection mime_detection
  = let agree := String.eqb (DetectionResult.detected_type ext_detection)
                   (DetectionResult.detected_type mime_detection) in
    DetectionResult.mk
      (DetectionResult.method mime_detection)
      (DetectionResult.detected_type mime_detection)
      (DetectionResult.mime_type mime_detection)
      (DetectionResult.description mime_detection)
      (if agree
       then Py.min 1 (DetectionResult.confidence ext_detection
                      + DetectionResult.confidence mime_detection)
       else DetectionResult.confidence mime_detection)
      (DetectionResult.is_supported mime_detection)
      (Some (if agree then "coherent" else "mime_priority"))
      (Some agree).
Proof.
  intros Hc Hm. unfold _resolve_detection_conflicts. rewrite Hc.
  apply String.eqb_neq in Hm. rewrite Hm. cbn [negb andb].
  clear Hc Hm.
  destruct (String.eqb (DetectionResult.detected_type ext_detection) _);
    reflexivity.
Qed.

(** C1. When the content classification has a confidence of at most 0.7, or
    the media identifier ["error"], the resolver returns the extension
    classification as it is, with [resolution = "extension_fallback"] as the
    only change.  This holds for every pair, so also when the two detected
    types are equal: the result is then neither ["coherent"] nor a content
    override, and its confidence is the extension's. *)
Theorem resolve_extension_fallback
  (ext_detection mime_detection : DetectionResult.t) :
  (DetectionResult.confidence mime_detection <= 7 # 10)%Q
  \/ DetectionResult.mime_type mime_detection = "error" ->
  let result := _resolve_detection_conflicts ext_detection mime_detection in
  result
  = DetectionResult.mk
      (DetectionResult.method ext_detection)
      (DetectionResult.detected_type ext_detection)
      (DetectionResult.mime_type ext_detection)
      (DetectionResult.description ext_detection)
      (DetectionResult.confidence ext_detection)
      (DetectionResult.is_supported ext_detection)
      (Some "extension_fallback")
      (DetectionResult.extension_match ext_detection)
  /\ DetectionResult.resolution result <> Some "coherent"
  /\ DetectionResult.resolution result <> Some "mime_priority".
Proof.
  intros H result.
  assert (E : result
              = DetectionResult.set_resolution "extension_fallback"
                  ext_detection).
  { apply resolve_gate_closed. destruct H as [H | H]; [left | now right].
    now apply gtb_le. }
  rewrite E. split; [reflexivity | split; cbn; discriminate].
Qed.

(** C3 (amended: the tag is ["mime_priority"]).  When the content
    classification passes the gate (confidence above 0.7, media identifier
    not ["error"]) and the two detected types differ, the resolver returns
    the content classification's fields with
    [resolution = "mime_priority"], [extension_match = false] and the
    content confidence unchanged. *)
Theorem resolve_mime_priority
  (ext_detection mime_detection : DetectionResult.t) :
  (7 # 10 < DetectionResult.confidence mime_detection)%Q ->
  DetectionResult.mime_type mime_detection <> "error" ->
  DetectionResult.detected_type ext_detection
  <> DetectionResult.detected_type mime_detection ->
  _resolve_detection_conflicts ext_detection mime_detection
  = DetectionResult.mk
      (DetectionResult.method mime_detection)
      (DetectionResult.detected_type mime_detection)
      (DetectionResult.mime_type mime_detection)
      (DetectionResult.description mime_detection)
      (DetectionResult.confidence mime_detection)
      (DetectionResult.is_supported mime_detection)
      (Some "mime_priority")
      (Some false).
Proof.
  intros Hc Hm Hne.
  rewrite resolve_gate_open by (try apply gtb_gt; assumption).
  apply String.eqb_neq in Hne. cbn zeta. now rewrite Hne.
Qed.

(** *** The file probe *)

(** C7. The size bucket is the step function of the byte count with cut
    points at 1, 10 and 50 megabytes (of [1024 * 1024] bytes): below 1 MB
    ["small"], below 10 MB ["medium"], below 50 MB ["large"], otherwise
    ["very_large"]; exactly 1 MB is ["medium"] and exactly 50 MB is
    ["very_large"]. *)
Theorem categorize_file_size_steps (size_bytes : Z) :
  _categorize_file_size size_bytes = size_bucket size_bytes
  /\ _categorize_file_size (1 * MB) = "medium"
  /\ _categorize_file_size (1 * MB - 1) = "small"
  /\ _categorize_file_size (50 * MB) = "very_large"
  /\ _categorize_file_size (50 * MB - 1) = "large".
Proof.
  split; [| repeat split; reflexivity].
  unfold _categorize_file_size, size_bucket. cbn zeta.
  change 1%Q with (inject_Z 1). change 10%Q with (inject_Z 10).
  change 50%Q with (inject_Z 50).
  now rewrite !ltb_megabytes.
Qed.

(** *** Running the monad *)

Lemma bind_returned {A B} (m : M A) (f : A -> M B) t a t' :
  m t = (Returned a, t') -> (m ≫= f) t = f a t'.
Proof. intros H. unfold mbind, M_bind. now rewrite H. Qed.

Lemma bind_raised {A B} (m : M A) (f : A -> M B) t e t' :
  m t = (Raised e, t') -> (m ≫= f) t = (Raised e, t').
Proof. intros H. unfold mbind, M_bind. now rewrite H. Qed.

Lemma try_except_returns {A} (body : M A) (handler : exn -> M A) t :
  (forall e t0, exists a t1, handler e t0 = (Returned a, t1)) ->
  exists a t', try_except body handler t = (Returned a, t').
Proof.
  intros Hh. unfold try_except.
  destruct (body t) as [[a | e] t']; eauto.
Qed.

Ltac unfold_M :=
  unfold service_is_supported, service_get_document_type,
    service_get_extension_from_mime, getattr, pydantic_str, call, raise,
    try_except, mbind, M_bind, mret, M_ret in *.

(** *** The catalog accessor *)

Lemma is_supported_true (service : DocumentService.t) (extension : string) :
  DocumentService.is_supported service extension = true
  <-> exists d, DocumentService.get_document_type service extension = Some d.
Proof.
  unfold DocumentService.is_supported, DocumentService.get_document_type.
  rewrite bool_decide_eq_true. reflexivity.
Qed.

Lemma is_supported_false (service : DocumentService.t) (extension : string) :
  DocumentService.is_supported service extension = false
  <-> DocumentService.get_document_type service extension = None.
Proof.
  unfold DocumentService.is_supported, DocumentService.get_document_type.
  rewrite bool_decide_eq_false, <- eq_None_not_Some. reflexivity.
Qed.

(** Every entry of the static configuration passes the validators
    unchanged, and is stored under its own extension. *)
Lemma SUPPORTED_EXTENSIONS_valid `{Laws : !Py.StrLaws PyStr} :
  Forall (fun '(ext, config) =>
            DocumentType.validate config = Some config
            /\ DocumentType.extension config = ext)
    SUPPORTED_EXTENSIONS.
Proof.
  repeat constructor;
    unfold DocumentType.validate, DocumentType.extension_must_start_with_dot;
    cbn; rewrite Py.lower_ascii_text by reflexivity; reflexivity.
Qed.

(** *** The extension classifier *)

(** The extension classifier always returns: the descriptor of a supported
    extension with confidence 0.7, or the unsupported classification with
    confidence 0.3. *)
Lemma detect_by_extension_run env self path_obj t :
  let service := document_service self in
  let extension := Py.lower (Path_suffix env path_obj) in
  _detect_by_extension env self path_obj t
  = match DocumentService.get_document_type service extension with
    | Some doc_type =>
        (Returned
           (DetectionResult.mk "extension" extension
              (DocumentType.mime_type doc_type)
              (DocumentType.description doc_type) (7 # 10) true None None),
         (t ++ [ServiceIsSupported extension;
                ServiceGetDocumentType extension])%list)
    | None =>
        (Returned
           (DetectionResult.mk "extension" extension "unknown"
              "Type non supporté" (3 # 10) false None None),
         (t ++ [ServiceIsSupported extension])%list)
    end.
Proof.
  cbn zeta. unfold _detect_by_extension. unfold_M.
  generalize (document_service self) (Py.lower (Path_suffix env path_obj)).
  intros service extension.
  destruct (DocumentService.get_document_type service extension)
    as [d |] eqn:E.
  - assert (S : DocumentService.is_supported service extension = true)
      by (apply is_supported_true; eauto).
    rewrite S. now rewrite <- app_assoc.
  - apply is_supported_false in E. now rewrite E.
Qed.

(** *** The content classifier *)

Lemma sniff_run env path_obj t :
  sniff env path_obj t
  = (match fst (sniffer_answer env path_obj) with
     | Returned m => Returned (m, sniffer_confidence env)
     | Raised e => Raised e
     end, (t ++ [snd (sniffer_answer env path_obj)])%list).
Proof.
  unfold sniff, sniffer_answer, sniffer_confidence. unfold_M.
  destruct (HAS_MAGIC env); [| destruct (HAS_FILETYPE env)]; cbn [fst snd].
  - now destruct (magic_from_file env path_obj).
  - now destruct (filetype_guess env path_obj).
  - now destruct (mimetypes_guess_type env path_obj).
Qed.

Lemma detect_by_mime_returns env self path_obj t :
  exists r t',
    _detect_by_mime env self path_obj t = (Returned r, t')
    /\ content_classification env (document_service self) r.
Proof.
  unfold _detect_by_mime, try_except.
  unfold mbind at 1. unfold M_bind at 1. rewrite sniff_run.
  destruct (fst (sniffer_answer env path_obj)) as [mime_type | e].
  2: { do 2 eexists. split; [reflexivity | constructor]. }
  unfold_M.
  destruct (DocumentService.get_extension_from_mime _ mime_type)
    as [detected_ext |] eqn:E; cbn [Py.truthy].
  2: { do 2 eexists. split; [reflexivity | constructor]. }
  destruct (String.eqb detected_ext "") eqn:N; cbn [negb default]; unfold id.
  { do 2 eexists. split; [reflexivity | constructor]. }
  destruct (DocumentService.get_document_type _ detected_ext)
    as [doc_type |] eqn:D.
  2: { do 2 eexists. split; [reflexivity | constructor]. }
  destruct mime_type as [mime_type |]; [| discriminate E].
  do 2 eexists. split; [reflexivity |]. now apply content_recognised.
Qed.

(** A content classification that passes the gate names a catalog type; an
    extension classification of the same type is therefore a supported one,
    with confidence 0.7. *)
Lemma agreeing_extension_confidence env self path_obj path_obj' t1 t1' t2 t2'
  (ext_detection mime_detection : DetectionResult.t) :
  _detect_by_extension env self path_obj t1 = (Returned ext_detection, t1') ->
  _detect_by_mime env self path_obj' t2 = (Returned mime_detection, t2') ->
  (7 # 10 < DetectionResult.confidence mime_detection)%Q ->
  DetectionResult.detected_type ext_detection
  = DetectionResult.detected_type mime_detection ->
  DetectionResult.confidence ext_detection = 7 # 10.
Proof.
  intros Hext Hmime Hc Heq.
  destruct (detect_by_mime_returns env self path_obj' t2)
    as (r & t' & Hr & Hshape).
  rewrite Hmime in Hr. injection Hr as <- _.
  rewrite detect_by_extension_run in Hext. cbn zeta in Hext.
  inversion Hshape as [m x d Hx Hd Hrec | m Hrec | e Hrec];
    subst mime_detection.
  - cbn in Heq.
    destruct (DocumentService.get_document_type (document_service self)
                (Py.lower (Path_suffix env path_obj))) eqn:G.
    + now injection Hext as <- _.
    + injection Hext as <- _. cbn in Heq. congruence.
  - now vm_compute in Hc.
  - now vm_compute in Hc.
Qed.

(** C2. For outputs of the two classifiers over one catalog, when the
    content classification passes the gate and the two detected types are
    equal, the extension classification has confidence 0.7 and the resolver
    returns the content classification's fields with
    [resolution = "coherent"], [extension_match = true] and confidence
    [min(1.0, 0.7 + content confidence)], which is also
    [min(1.0, extension confidence + content confidence)]. *)
Theorem resolve_coherent env self path_obj path_obj' t1 t1' t2 t2'
  (ext_detection mime_detection : DetectionResult.t) :
  _detect_by_extension env self path_obj t1 = (Returned ext_detection, t1') ->
  _detect_by_mime env self path_obj' t2 = (Returned mime_detection, t2') ->
  (7 # 10 < DetectionResult.confidence mime_detection)%Q ->
  DetectionResult.mime_type mime_detection <> "error" ->
  DetectionResult.detected_type ext_detection
  = DetectionResult.detected_type mime_detection ->
  DetectionResult.confidence ext_detection = 7 # 10
  /\ _resolve_detection_conflicts ext_detection mime_detection
     = DetectionResult.mk
         (DetectionResult.method mime_detection)
         (DetectionResult.detected_type mime_detection)
         (DetectionResult.mime_type mime_detection)
         (DetectionResult.description mime_detection)
         (Py.min 1 ((7 # 10) + DetectionResult.confidence mime_detection))
         (DetectionResult.is_supported mime_detection)
         (Some "coherent")
         (Some true)
  /\ Py.min 1 ((7 # 10) + DetectionResult.confidence mime_detection)
     = Py.min 1 (DetectionResult.confidence ext_detection
                 + DetectionResult.confidence mime_detection).
Proof.
  intros Hext Hmime Hc Hm Heq.
  assert (C : DetectionResult.confidence ext_detection = 7 # 10)
    by (eapply agreeing_extension_confidence; eassumption).
  split; [exact C |].
  rewrite resolve_gate_open by (try apply gtb_gt; assumption).
  cbn zeta. rewrite Heq, String.eqb_refl, C. split; reflexivity.
Qed.

(** The resolution of a pair tells which branch the resolver took. *)
Lemma resolve_coherent_inv (ext_detection mime_detection : DetectionResult.t) :
  DetectionResult.resolution
    (_resolve_detection_conflicts ext_detection mime_detection)
  = Some "coherent" ->
  (7 # 10 < DetectionResult.confidence mime_detection)%Q
  /\ DetectionResult.mime_type mime_detection <> "error"
  /\ DetectionResult.detected_type ext_detection
     = DetectionResult.detected_type mime_detection.
Proof.
  intros H.
  destruct (Py.gtb (DetectionResult.confidence mime_detection) (7 # 10))
    eqn:Hc.
  2: { rewrite resolve_gate_closed in H by now left. discriminate H. }
  destruct (String.eqb_spec (DetectionResult.mime_type mime_detection)
              "error") as [Hm | Hm].
  { rewrite resolve_gate_closed in H by now right. discriminate H. }
  rewrite resolve_gate_open in H by assumption. cbn in H.
  destruct (String.eqb_spec (DetectionResult.detected_type ext_detection)
              (DetectionResult.detected_type mime_detection)) as [He | He].
  - repeat split; try assumption. now apply gtb_gt.
  - discriminate H.
Qed.

(** The confidence of a content classification that passes the gate is 0.9
    or 0.8. *)
Lemma content_confidence_above_gate env service r :
  content_classification env service r ->
  (7 # 10 < DetectionResult.confidence r)%Q ->
  DetectionResult.confidence r = 9 # 10
  \/ DetectionResult.confidence r = 8 # 10.
Proof.
  intros Hshape Hc.
  inversion Hshape as [m x d Hx Hd Hrec | m Hrec | e Hrec]; subst r;
    cbn in *; try (now vm_compute in Hc).
  unfold sniffer_confidence in *.
  destruct (HAS_MAGIC env); [now left |].
  destruct (HAS_FILETYPE env); [now right |]. now vm_compute in Hc.
Qed.

(** C10. Over the default catalog, whenever the resolver answers
    ["coherent"] on outputs of the two classifiers, the final confidence is
    exactly 1.0: the extension classification then has confidence 0.7, the
    content classification 0.9 or 0.8, and their sum is capped. *)
Theorem coherent_confidence_is_one env path_obj path_obj' t1 t1' t2 t2'
  (ext_detection mime_detection : DetectionResult.t) :
  let self := {| document_service := DocumentService.init |} in
  _detect_by_extension env self path_obj t1 = (Returned ext_detection, t1') ->
  _detect_by_mime env self path_obj' t2 = (Returned mime_detection, t2') ->
  DetectionResult.resolution
    (_resolve_detection_conflicts ext_detection mime_detection)
  = Some "coherent" ->
  DetectionResult.confidence
    (_resolve_detection_conflicts ext_detection mime_detection) = 1%Q
  /\ DetectionResult.confidence ext_detection = 7 # 10
  /\ (DetectionResult.confidence mime_detection = 9 # 10
      \/ DetectionResult.confidence mime_detection = 8 # 10).
Proof.
  intros self Hext Hmime Hres.
  destruct (resolve_coherent_inv _ _ Hres) as (Hc & Hm & Heq).
  assert (Ce : DetectionResult.confidence ext_detection = 7 # 10)
    by (eapply agreeing_extension_confidence; eassumption).
  assert (Cm : DetectionResult.confidence mime_detection = 9 # 10
               \/ DetectionResult.confidence mime_detection = 8 # 10).
  { destruct (detect_by_mime_returns env self path_obj' t2)
      as (r & t' & Hr' & Hshape).
    rewrite Hmime in Hr'. injection Hr' as <- _.
    eapply content_confidence_above_gate; eassumption. }
  repeat split; try assumption.
  rewrite resolve_gate_open by (try apply gtb_gt; assumption).
  cbn zeta. rewrite Heq, String.eqb_refl, Ce. cbn [DetectionResult.confidence].
  destruct Cm as [-> | ->]; reflexivity.
Qed.

(** *** The file probe and the estimator, step by step *)

Lemma extract_file_info_run env path_obj t size_bytes resolved :
  Path_stat_st_size env path_obj = Returned size_bytes ->
  Path_resolve env path_obj = Returned resolved ->
  _extract_file_info env path_obj t
  = (Returned
       (FileInfo.mk resolved (Path_name env path_obj) (Path_stem env path_obj)
          (Py.lower (Path_suffix env path_obj)) size_bytes
          (Py.round2 (inject_Z size_bytes / inject_Z (1024 * 1024)))
          (_categorize_file_size size_bytes)),
     (t ++ [PathStat path_obj; PathResolve path_obj])%list).
Proof.
  intros Hs Hr. unfold _extract_file_info. unfold_M. rewrite Hs, Hr.
  now rewrite <- app_assoc.
Qed.

(** The estimator always returns. *)
Lemma generate_processing_info_run self detection file_info t :
  let service := document_service self in
  let detected_type := DetectionResult.detected_type detection in
  let size_mb := FileInfo.size_mb file_info in
  _generate_processing_info self detection file_info t
  = if DetectionResult.is_supported detection then
      match DocumentService.get_document_type service detected_type with
      | Some doc_type =>
          let overall_complexity :=
            _max_complexity
              (ComplexityLevel.value (DocumentType.complexity doc_type))
              (_estimate_size_complexity size_mb) in
          (Returned
             (ProcessingInfo.mk true
                (Some (DocumentType.parser_module doc_type))
                (Some overall_complexity)
                (Some (_estimate_processing_time overall_complexity size_mb))
                (Some (_estimate_memory_usage detected_type size_mb))
                None),
           (t ++ [ServiceIsSupported detected_type;
                  ServiceGetDocumentType detected_type])%list)
      | None =>
          (Returned unsupported_processing,
           (t ++ [ServiceIsSupported detected_type])%list)
      end
    else (Returned unsupported_processing, t).
Proof.
  cbn zeta. unfold _generate_processing_info. unfold_M.
  generalize (document_service self) (DetectionResult.detected_type detection).
  intros service detected_type.
  destruct (DetectionResult.is_supported detection); [| reflexivity].
  destruct (DocumentService.get_document_type service detected_type)
    as [d |] eqn:E.
  - assert (S : DocumentService.is_supported service detected_type = true)
      by (apply is_supported_true; eauto).
    rewrite S. now rewrite <- app_assoc.
  - apply is_supported_false in E. now rewrite E.
Qed.

Lemma generate_processing_info_returns self detection file_info t :
  exists p t',
    _generate_processing_info self detection file_info t
    = (Returned p, t').
Proof.
  rewrite generate_processing_info_run. cbn zeta.
  destruct (DetectionResult.is_supported detection); [| eauto].
  destruct (DocumentService.get_document_type _ _); eauto.
Qed.

(** The size-derived complexity and the ordinal maximum are what the two
    string helpers compute. *)
Lemma estimate_size_complexity_level (size_mb : Q) :
  _estimate_size_complexity size_mb
  = ComplexityLevel.value (size_derived_complexity size_mb).
Proof.
  unfold _estimate_size_complexity, size_derived_complexity, Py.ltb, Qle_bool.
  rewrite !Z.ltb_antisym.
  destruct (_ <=? _); cbn [negb]; [| reflexivity].
  destruct (_ <=? _); reflexivity.
Qed.

Lemma max_complexity_ordinal (a b : ComplexityLevel.t) :
  _max_complexity (ComplexityLevel.value a) (ComplexityLevel.value b)
  = ComplexityLevel.value (ordinal_max a b).
Proof. destruct a, b; vm_compute; reflexivity. Qed.

Lemma max_complexity_tie (a b : ComplexityLevel.t) :
  (complexity_rank b <= complexity_rank a)%nat ->
  _max_complexity (ComplexityLevel.value a) (ComplexityLevel.value b)
  = ComplexityLevel.value a.
Proof. destruct a, b; cbn; intros H; try lia; vm_compute; reflexivity. Qed.

(** *** The processing estimator *)

(** C8 (amended: the reason is the source's message).  When the final
    classification is unsupported (its [is_supported] is false, or the
    catalog accessor does not know its detected type), the estimator returns
    [can_process = false] with the reason ["Type de fichier non supporté"]
    and no other field; when it is supported, the estimator returns
    [can_process = true] with the parser of the catalog's descriptor and no
    reason. *)
Theorem processing_info_support self detection file_info t :
  let service := document_service self in
  let detected_type := DetectionResult.detected_type detection in
  (DetectionResult.is_supported detection = false
   \/ DocumentService.is_supported service detected_type = false ->
   exists t',
     _generate_processing_info self detection file_info t
     = (Returned
          (ProcessingInfo.mk false None None None None
             (Some "Type de fichier non supporté")), t'))
  /\ (forall doc_type,
        DetectionResult.is_supported detection = true ->
        DocumentService.get_document_type service detected_type
        = Some doc_type ->
        exists p t',
          _generate_processing_info self detection file_info t
          = (Returned p, t')
          /\ ProcessingInfo.can_process p = true
          /\ ProcessingInfo.recommended_parser p
             = Some (DocumentType.parser_module doc_type)
          /\ ProcessingInfo.reason p = None).
Proof.
  cbn zeta. rewrite generate_processing_info_run. cbn zeta. split.
  - intros [H | H].
    + rewrite H. eauto.
    + apply is_supported_false in H. rewrite H.
      destruct (DetectionResult.is_supported detection); eauto.
  - intros doc_type Hs Hd. rewrite Hs, Hd. do 2 eexists.
    split; [reflexivity |]. repeat split.
Qed.

(** *** The orchestrator *)

Lemma bind_inv {A B} (m : M A) (f : A -> M B) t b t' :
  (m ≫= f) t = (Returned b, t') ->
  exists a t1, m t = (Returned a, t1) /\ f a t1 = (Returned b, t').
Proof.
  unfold mbind, M_bind. destruct (m t) as [[a | e] t1]; [eauto | discriminate].
Qed.

Lemma detect_by_extension_returns env self path_obj t :
  exists r t', _detect_by_extension env self path_obj t = (Returned r, t').
Proof.
  rewrite detect_by_extension_run. cbn zeta.
  destruct (DocumentService.get_document_type _ _); eauto.
Qed.

(** The [try] block, when each step returns. *)
Lemma detect_try_run env self path_obj t file_info t1 ext t2 mime t3 proc t4 :
  _extract_file_info env path_obj t = (Returned file_info, t1) ->
  _detect_by_extension env self path_obj t1 = (Returned ext, t2) ->
  _detect_by_mime env self path_obj t2 = (Returned mime, t3) ->
  _generate_processing_info self (_resolve_detection_conflicts ext mime)
    file_info t3 = (Returned proc, t4) ->
  detect_document_type_try env self path_obj t
  = (Returned
       (DocumentDetectionResult.mk (Some file_info)
          (Some (_resolve_detection_conflicts ext mime)) (Some proc)
          "success" None), t4).
Proof.
  intros H1 H2 H3 H4. unfold detect_document_type_try.
  rewrite (bind_returned _ _ _ _ _ H1), (bind_returned _ _ _ _ _ H2),
    (bind_returned _ _ _ _ _ H3).
  cbn zeta. now rewrite (bind_returned _ _ _ _ _ H4).
Qed.

(** What the [try] block returns is a success carrying all three parts. *)
Lemma detect_try_success env self path_obj t r t' :
  detect_document_type_try env self path_obj t = (Returned r, t') ->
  exists file_info detection processing,
    r = DocumentDetectionResult.mk (Some file_info) (Some detection)
          (Some processing) "success" None.
Proof.
  unfold detect_document_type_try. intros H.
  apply bind_inv in H as (file_info & t1 & _ & H).
  apply bind_inv in H as (ext & t2 & _ & H).
  apply bind_inv in H as (mime & t3 & _ & H). cbn zeta in H.
  apply bind_inv in H as (proc & t4 & _ & H).
  injection H as <- _. eauto.
Qed.

(** The entry point, by cases on the existence test and on the outcome of
    the [try] block. *)
Lemma detect_document_type_run env self file_path t :
  detect_document_type env self file_path t
  = let t0 := (t ++ [PathExists file_path])%list in
    match Path_exists env file_path with
    | Returned true =>
        match detect_document_type_try env self file_path t0 with
        | (Returned r, t') => (Returned r, t')
        | (Raised e, t') =>
            (Returned
               (error_outcome ("Erreur lors de l'analyse: " ++ exn_str e)),
             t')
        end
    | Returned false =>
        (Returned (error_outcome ("Fichier non trouvé:" ++ file_path)), t0)
    | Raised e => (Raised e, t0)
    end.
Proof.
  unfold detect_document_type. unfold_M.
  destruct (Path_exists env file_path) as [[|] | e]; reflexivity.
Qed.

(** When the existence test answers [False], the detection returns the
    error outcome whose message names the path, with no file facts, no
    classification and no estimate; the existence test is the only call it
    makes. *)
Lemma missing_path_is_an_error env self file_path t :
  Path_exists env file_path = Returned false ->
  detect_document_type env self file_path t
  = (Returned
       (DocumentDetectionResult.mk None None None "error"
          (Some ("Fichier non trouvé:" ++ file_path))),
     (t ++ [PathExists file_path])%list).
Proof. intros H. rewrite detect_document_type_run. cbn zeta. now rewrite H. Qed.

(** C4 fails on the code.  The existence test runs before the [try] block:
    when it raises, as [Path.exists] does on a name too long to exist, the
    detection raises the same exception after that one call, instead of
    returning the error outcome that names the missing path. *)
Theorem existence_test_fault_escapes env self file_path t e :
  Path_exists env file_path = Raised e ->
  detect_document_type env self file_path t
  = (Raised e, (t ++ [PathExists file_path])%list).
Proof. intros H. rewrite detect_document_type_run. cbn zeta. now rewrite H. Qed.

(** C5 fails on the code.  The detection raises to its caller exactly when
    the existence test raises; every other fault is caught.  What the
    detection returns is a success carrying file facts, classification and
    estimate together, or an error carrying a message and none of the
    three; an exception raised by a step of the [try] block becomes the
    error outcome whose message ends with the text of the exception. *)
Theorem detect_raises_iff_existence_test_raises env self file_path t :
  ((exists e t', detect_document_type env self file_path t = (Raised e, t'))
   <-> exists e, Path_exists env file_path = Raised e)
  /\ (forall r t',
        detect_document_type env self file_path t = (Returned r, t') ->
        (DocumentDetectionResult.status r = "success"
         /\ is_Some (DocumentDetectionResult.file_info r)
         /\ is_Some (DocumentDetectionResult.detection r)
         /\ is_Some (DocumentDetectionResult.processing r)
         /\ DocumentDetectionResult.error r = None)
        \/ (DocumentDetectionResult.status r = "error"
            /\ DocumentDetectionResult.file_info r = None
            /\ DocumentDetectionResult.detection r = None
            /\ DocumentDetectionResult.processing r = None
            /\ is_Some (DocumentDetectionResult.error r)))
  /\ (forall e t',
        Path_exists env file_path = Returned true ->
        detect_document_type_try env self file_path
          (t ++ [PathExists file_path])%list = (Raised e, t') ->
        detect_document_type env self file_path t
        = (Returned
             (DocumentDetectionResult.mk None None None "error"
                (Some ("Erreur lors de l'analyse: " ++ exn_str e))), t')).
Proof.
  rewrite detect_document_type_run. cbn zeta.
  destruct (Path_exists env file_path) as [[|] | e0].
  - destruct (detect_document_type_try _ _ _ _) as [[r0 | e0] t0] eqn:H.
    + apply detect_try_success in H as (fi & d & p & ->).
      split; [| split].
      * split; [intros (e & t' & [=]) | intros (e & [=])].
      * intros r t' [= <- _]. left. cbn. eauto 10.
      * intros e t' _ [=].
    + split; [| split].
      * split; [intros (e & t' & [=]) | intros (e & [=])].
      * intros r t' [= <- _]. right. cbn. eauto 10.
      * intros e t' _ [= <- <-]. reflexivity.
  - split; [| split].
    + split; [intros (e & t' & [=]) | intros (e & [=])].
    + intros r t' [= <- _]. right. cbn. eauto 10.
    + intros e t' [=].
  - split; [| split].
    + split; [eauto | eauto].
    + intros r t' [=].
    + intros e t' [=].
Qed.

(** *** Sniffing faults *)

Lemma detect_by_mime_fault env self path_obj t e :
  fst (sniffer_answer env path_obj) = Raised e ->
  _detect_by_mime env self path_obj t
  = (Returned (sniffing_fault e),
     (t ++ [snd (sniffer_answer env path_obj)])%list).
Proof.
  intros H. unfold _detect_by_mime, try_except.
  unfold mbind at 1. unfold M_bind at 1. rewrite sniff_run, H. reflexivity.
Qed.

(** C6. The content classifier never raises.  When the sniffing library
    raises, it returns the classification with detected type ["unknown"],
    media identifier ["error"], confidence 0.0 and [is_supported = false],
    after that one call; the resolver then answers with the extension
    classification, and a detection whose file probe succeeded ends in
    success with the extension classification as its result. *)
Theorem sniffing_fault_is_recovered env self path_obj t e :
  fst (sniffer_answer env path_obj) = Raised e ->
  (_detect_by_mime env self path_obj t
   = (Returned
        (DetectionResult.mk "mime_content" "unknown" "error"
           ("Erreur détection MIME: " ++ exn_str e) 0 false None None),
      (t ++ [snd (sniffer_answer env path_obj)])%list))
  /\ (forall path_obj' t0,
        exists r t', _detect_by_mime env self path_obj' t0 = (Returned r, t'))
  /\ (forall size_bytes resolved,
        Path_exists env path_obj = Returned true ->
        Path_stat_st_size env path_obj = Returned size_bytes ->
        Path_resolve env path_obj = Returned resolved ->
        exists r t' ext t1 t1',
          detect_document_type env self path_obj t = (Returned r, t')
          /\ _detect_by_extension env self path_obj t1 = (Returned ext, t1')
          /\ DocumentDetectionResult.status r = "success"
          /\ DocumentDetectionResult.detection r
             = Some (DetectionResult.mk
                       (DetectionResult.method ext)
                       (DetectionResult.detected_type ext)
                       (DetectionResult.mime_type ext)
                       (DetectionResult.description ext)
                       (DetectionResult.confidence ext)
                       (DetectionResult.is_supported ext)
                       (Some "extension_fallback")
                       (DetectionResult.extension_match ext))).
Proof.
  intros He. split; [| split].
  - now apply detect_by_mime_fault.
  - intros path_obj' t0.
    destruct (detect_by_mime_returns env self path_obj' t0) as (r & t' & H & _).
    eauto.
  - intros size_bytes resolved Hx Hs Hr.
    rewrite detect_document_type_run. cbn zeta. rewrite Hx.
    pose proof (extract_file_info_run env path_obj
                  (t ++ [PathExists path_obj])%list _ _ Hs Hr) as H1.
    destruct (detect_by_extension_returns env self path_obj
                (t ++ [PathExists path_obj] ++ [PathStat path_obj;
                                                PathResolve path_obj])%list)
      as (ext & t2 & H2).
    rewrite app_assoc in H2.
    pose proof (detect_by_mime_fault env self path_obj t2 e He) as H3.
    destruct (generate_processing_info_returns self
                (_resolve_detection_conflicts ext (sniffing_fault e))
                (FileInfo.mk resolved (Path_name env path_obj)
                   (Path_stem env path_obj)
                   (Py.lower (Path_suffix env path_obj)) size_bytes
                   (Py.round2 (inject_Z size_bytes / inject_Z (1024 * 1024)))
                   (_categorize_file_size size_bytes))
                (t2 ++ [snd (sniffer_answer env path_obj)])%list)
      as (proc & t4 & H4).
    rewrite (detect_try_run _ _ _ _ _ _ _ _ _ _ _ _ H1 H2 H3 H4).
    do 5 eexists. split; [reflexivity |]. split; [exact H2 |].
    split; [reflexivity |]. cbn [DocumentDetectionResult.detection].
    rewrite resolve_gate_closed by (now right). reflexivity.
Qed.

(** *** The rational model against IEEE doubles *)

(** On each confidence the content classifier produces, the gate
    [confidence > 0.7] decides the same on doubles as on rationals. *)
Lemma binary64_gate :
  Forall (fun c =>
            Binary64.gtb (Binary64.of_Q c) (Binary64.of_Q (7 # 10))
            = Py.gtb c (7 # 10))
    content_confidences.
Proof. repeat constructor. Qed.

(** On each pair of confidences that can reach the coherent branch, the
    capped sum on doubles is the double of the capped sum on rationals,
    which is 1.0. *)
Lemma binary64_coherent_sum :
  Forall (fun e =>
            Forall (fun c =>
                      Binary64.min 1 (Binary64.of_Q e + Binary64.of_Q c)
                      = Binary64.of_Q (Py.min 1 (e + c))
                      /\ Binary64.of_Q (Py.min 1 (e + c)) = 1%float)
              [9 # 10; 8 # 10])
    extension_confidences.
Proof. repeat constructor. Qed.

(** Next to each cut point, the quotient by [1024 * 1024] compares on
    doubles as it does on rationals. *)
Lemma binary64_size_cuts :
  Forall (fun n =>
            Forall (fun k =>
                      Binary64.ltb
                        (Binary64.of_Q (inject_Z n / inject_Z (1024 * 1024)))
                        (Binary64.of_Q (inject_Z k))
                      = Py.ltb (inject_Z n / inject_Z (1024 * 1024))
                          (inject_Z k))
              [1; 10; 50])
    sizes_at_cut_points.
Proof. repeat constructor. Qed.

(** ** Further properties of the catalog and of the detector *)

(** *** The validators of [DocumentType] *)

(** X1. A descriptor that passes the validators keeps its fields, except
    that its extension is stored lower-cased; the stored extension starts
    with a dot and is its own lower-casing, the MIME type contains a slash,
    and validating the stored descriptor again returns it unchanged. *)
Theorem validate_normal_form `{Laws : !Py.StrLaws PyStr}
  (config doc_type : DocumentType.t) :
  DocumentType.validate config = Some doc_type ->
  DocumentType.extension doc_type = Py.lower (DocumentType.extension config)
  /\ (exists rest, DocumentType.extension doc_type = String "." rest)
  /\ Py.lower (DocumentType.extension doc_type)
     = DocumentType.extension doc_type
  /\ DocumentType.mime_type doc_type = DocumentType.mime_type config
  /\ DocumentType.contains_slash (DocumentType.mime_type doc_type) = true
  /\ DocumentType.description doc_type = DocumentType.description config
  /\ DocumentType.parser_module doc_type = DocumentType.parser_module config
  /\ DocumentType.complexity doc_type = DocumentType.complexity config
  /\ DocumentType.validate doc_type = Some doc_type.
Proof.
  destruct config as [e m d p c]. unfold DocumentType.validate.
  cbn [DocumentType.extension DocumentType.mime_type DocumentType.description
         DocumentType.parser_module DocumentType.complexity].
  unfold DocumentType.extension_must_start_with_dot,
    DocumentType.mime_type_must_be_valid.
  destruct e as [| a e]; [discriminate |].
  destruct (Ascii.eqb_spec a ".") as [-> | Hne].
  2: { destruct a as [[] [] [] [] [] [] [] []]; try discriminate.
       now contradiction Hne. }
  destruct (DocumentType.contains_slash m) eqn:Hm; [| discriminate].
  intros [= <-].
  cbn [DocumentType.extension DocumentType.mime_type DocumentType.description
         DocumentType.parser_module DocumentType.complexity].
  destruct (Py.lower_dot e) as [r Hr].
  repeat split; try reflexivity.
  - exists r. exact Hr.
  - apply Py.lower_idempotent.
  - exact Hm.
  - rewrite Hm, Hr. rewrite <- Hr, Py.lower_idempotent. reflexivity.
Qed.

(** *** Registering and removing document types *)

Lemma validate_extension (config doc_type : DocumentType.t) :
  DocumentType.validate config = Some doc_type ->
  DocumentType.extension doc_type = Py.lower (DocumentType.extension config).
Proof.
  unfold DocumentType.validate.
  destruct (DocumentType.extension_must_start_with_dot _) as [e |] eqn:He;
    [| discriminate].
  destruct (DocumentType.mime_type_must_be_valid _); [| discriminate].
  intros [= <-]. cbn [DocumentType.extension].
  unfold DocumentType.extension_must_start_with_dot in He.
  destruct (DocumentType.extension config) as [| a r]; [discriminate |].
  destruct a as [[] [] [] [] [] [] [] []]; try discriminate.
  now injection He as <-.
Qed.

(** X2. After a validated descriptor is registered, the accessor finds it
    under its extension however the extension is spelled in upper or lower
    case, and maps its MIME type back to its extension. *)
Theorem add_then_lookup `{Laws : !Py.StrLaws PyStr}
  (self : DocumentService.t)
  (config doc_type : DocumentType.t) (spelling : string) :
  DocumentType.validate config = Some doc_type ->
  Py.lower spelling = Py.lower (DocumentType.extension config) ->
  let self' := add_document_type self doc_type in
  DocumentService.is_supported self' spelling = true
  /\ DocumentService.get_document_type self' spelling = Some doc_type
  /\ DocumentService.get_document_type self' (DocumentType.extension doc_type)
     = Some doc_type
  /\ DocumentService.get_extension_from_mime self'
       (Some (DocumentType.mime_type doc_type))
     = Some (DocumentType.extension doc_type).
Proof.
  intros Hv Hs self'. apply validate_extension in Hv.
  assert (L : DocumentService.get_document_type self' spelling
              = Some doc_type).
  { unfold DocumentService.get_document_type, self', add_document_type.
    cbn [DocumentService._supported_types]. rewrite Hs, <- Hv.
    apply lookup_insert_eq. }
  repeat split.
  - apply is_supported_true. eauto.
  - exact L.
  - unfold DocumentService.get_document_type, self', add_document_type.
    cbn [DocumentService._supported_types].
    rewrite Hv at 1. rewrite Py.lower_idempotent, <- Hv.
    apply lookup_insert_eq.
  - unfold DocumentService.get_extension_from_mime, self', add_document_type.
    cbn [DocumentService._mime_to_extension]. apply lookup_insert_eq.
Qed.

(** X3. Registering a descriptor leaves every other extension and every
    other MIME type of the catalog as it was. *)
Theorem add_keeps_others (self : DocumentService.t)
  (doc_type : DocumentType.t) (extension : string) (mime_type : string) :
  (Py.lower extension <> DocumentType.extension doc_type ->
   DocumentService.get_document_type (add_document_type self doc_type)
     extension
   = DocumentService.get_document_type self extension)
  /\ (mime_type <> DocumentType.mime_type doc_type ->
      DocumentService.get_extension_from_mime
        (add_document_type self doc_type) (Some mime_type)
      = DocumentService.get_extension_from_mime self (Some mime_type)).
Proof.
  unfold DocumentService.get_document_type,
    DocumentService.get_extension_from_mime, add_document_type.
  cbn [DocumentService._supported_types DocumentService._mime_to_extension].
  split; intros H; now rewrite lookup_insert_ne.
Qed.

(** X4. Removing an extension the catalog does not hold returns [False],
    raises nothing and leaves the service unchanged. *)
Theorem remove_unknown_extension (self : DocumentService.t)
  (extension : string) :
  DocumentService.is_supported self extension = false ->
  remove_document_type self extension = (self, Returned false).
Proof.
  intros H. apply is_supported_false in H.
  unfold DocumentService.get_document_type in H.
  unfold remove_document_type. cbn zeta. now rewrite H.
Qed.

(** X5. Registering a validated descriptor whose extension and MIME type
    are both new to the catalog, then removing its extension, returns
    [True] and gives back the service as it was. *)
Theorem remove_after_add `{Laws : !Py.StrLaws PyStr}
  (self : DocumentService.t)
  (config doc_type : DocumentType.t) :
  DocumentType.validate config = Some doc_type ->
  DocumentService._supported_types self !! DocumentType.extension doc_type
  = None ->
  DocumentService._mime_to_extension self !! DocumentType.mime_type doc_type
  = None ->
  remove_document_type (add_document_type self doc_type)
    (DocumentType.extension doc_type)
  = (self, Returned true).
Proof.
  intros Hv He Hm. apply validate_extension in Hv.
  assert (L : Py.lower (DocumentType.extension doc_type)
              = DocumentType.extension doc_type)
    by (rewrite Hv; apply Py.lower_idempotent).
  unfold remove_document_type, add_document_type. cbn zeta.
  cbn [DocumentService._supported_types DocumentService._mime_to_extension].
  rewrite L, !lookup_insert_eq, !delete_insert_id by assumption.
  now destruct self.
Qed.

(** X6. When the catalog holds an extension whose descriptor's MIME type is
    not a key of the MIME map, removing the extension raises [KeyError],
    with the [repr] of the MIME type as its text, after the descriptor has
    been deleted: the extension is no longer
    supported and the MIME map is untouched.  The state arises from the
    accessor's own operations: two descriptors registered with one MIME
    type, then one of them removed. *)
Theorem remove_raises_key_error (self : DocumentService.t)
  (extension : string) (doc_type : DocumentType.t) :
  DocumentService.get_document_type self extension = Some doc_type ->
  DocumentService.get_extension_from_mime self
    (Some (DocumentType.mime_type doc_type)) = None ->
  exists self',
    remove_document_type self extension
    = (self',
       Raised (Exception "KeyError"
                 (Py.repr (DocumentType.mime_type doc_type))))
    /\ DocumentService.is_supported self' extension = false
    /\ DocumentService._mime_to_extension self'
       = DocumentService._mime_to_extension self.
Proof.
  unfold DocumentService.get_document_type,
    DocumentService.get_extension_from_mime.
  intros Hd Hm. unfold remove_document_type. cbn zeta. rewrite Hd, Hm.
  eexists. split; [reflexivity |]. split; [| reflexivity].
  apply is_supported_false. unfold DocumentService.get_document_type.
  cbn [DocumentService._supported_types]. apply lookup_delete_eq.
Qed.

(** X7. When the catalog holds an extension and its descriptor's MIME type
    is a key of the MIME map, removing the extension returns [True];
    afterwards the extension is not supported, the MIME type maps to
    nothing, and every other extension is as before. *)
Theorem remove_known_extension (self : DocumentService.t)
  (extension : string) (doc_type : DocumentType.t) (mapped : string) :
  DocumentService.get_document_type self extension = Some doc_type ->
  DocumentService.get_extension_from_mime self
    (Some (DocumentType.mime_type doc_type)) = Some mapped ->
  exists self',
    remove_document_type self extension = (self', Returned true)
    /\ DocumentService.is_supported self' extension = false
    /\ DocumentService.get_extension_from_mime self'
         (Some (DocumentType.mime_type doc_type)) = None
    /\ (forall other,
          Py.lower other <> Py.lower extension ->
          DocumentService.get_document_type self' other
          = DocumentService.get_document_type self other).
Proof.
  unfold DocumentService.get_document_type,
    DocumentService.get_extension_from_mime.
  intros Hd Hm. unfold remove_document_type. cbn zeta. rewrite Hd, Hm.
  eexists. split; [reflexivity |].
  cbn [DocumentService._supported_types DocumentService._mime_to_extension].
  repeat split.
  - apply is_supported_false. unfold DocumentService.get_document_type.
    cbn [DocumentService._supported_types]. apply lookup_delete_eq.
  - apply lookup_delete_eq.
  - intros other Hne. apply lookup_delete_ne. congruence.
Qed.

(** *** The default catalog *)

Lemma default_supported_types (extension : string) (doc_type : DocumentType.t) :
  DocumentService._supported_types DocumentService.init !! extension
  = Some doc_type ->
  In (extension, doc_type) SUPPORTED_EXTENSIONS.
Proof.
  unfold DocumentService.init, get_supported_types, SUPPORTED_EXTENSIONS.
  cbn [DocumentService._supported_types foldl].
  rewrite !lookup_insert. rewrite lookup_empty.
  repeat case_decide; intros [= <-]; subst extension; cbn; tauto.
Qed.

Lemma default_mime_to_extension (mime_type extension : string) :
  DocumentService._mime_to_extension DocumentService.init !! mime_type
  = Some extension ->
  exists doc_type,
    In (extension, doc_type) SUPPORTED_EXTENSIONS
    /\ DocumentType.mime_type doc_type = mime_type.
Proof.
  unfold DocumentService.init, get_mime_to_extension_mapping,
    SUPPORTED_EXTENSIONS.
  cbn [DocumentService._mime_to_extension foldl DocumentType.mime_type].
  rewrite !lookup_insert. rewrite lookup_empty.
  repeat case_decide; intros [= <-]; subst mime_type;
    (eexists; split; [cbn; eauto 6 | reflexivity]).
Qed.

Lemma default_entries `{Laws : !Py.StrLaws PyStr} (extension : string)
  (doc_type : DocumentType.t) :
  In (extension, doc_type) SUPPORTED_EXTENSIONS ->
  DocumentType.extension doc_type = extension
  /\ Py.lower extension = extension
  /\ extension <> ""
  /\ DocumentService._supported_types DocumentService.init !! extension
     = Some doc_type
  /\ DocumentService._mime_to_extension DocumentService.init
       !! DocumentType.mime_type doc_type = Some extension.
Proof.
  unfold SUPPORTED_EXTENSIONS. cbn [In].
  intros [H | [H | [H | [H | []]]]]; injection H as <- <-;
    (repeat split;
     [discriminate || reflexivity
      || (rewrite Py.lower_ascii_text by reflexivity; reflexivity) ..]).
Qed.

(** X8. In the catalog of [DocumentService()], the two maps are inverse to
    each other: a descriptor stored under an extension carries that
    extension and its MIME type maps back to the extension, and a MIME type
    that maps to an extension is the MIME type of the descriptor stored
    there. *)
Theorem default_catalog_inverse `{Laws : !Py.StrLaws PyStr} :
  (forall extension doc_type,
     DocumentService._supported_types DocumentService.init !! extension
     = Some doc_type ->
     DocumentType.extension doc_type = extension
     /\ DocumentService.get_extension_from_mime DocumentService.init
          (Some (DocumentType.mime_type doc_type)) = Some extension)
  /\ (forall mime_type extension,
        DocumentService.get_extension_from_mime DocumentService.init
          (Some mime_type) = Some extension ->
        exists doc_type,
          DocumentService.get_document_type DocumentService.init extension
          = Some doc_type
          /\ DocumentType.mime_type doc_type = mime_type).
Proof.
  split.
  - intros extension doc_type H. apply default_supported_types in H.
    apply default_entries in H as (He & _ & _ & _ & Hm). now split.
  - intros mime_type extension H.
    apply default_mime_to_extension in H as (doc_type & Hin & Hm).
    apply default_entries in Hin as (_ & Hl & _ & Hs & _).
    exists doc_type. split; [| exact Hm].
    unfold DocumentService.get_document_type. now rewrite Hl.
Qed.

(** *** The content classifier as a catalog lookup *)

(** X9. Whatever the catalog, when the sniffing library returns a type the
    catalog has no extension for, or returns none, the content classifier
    answers ["unknown"] with confidence 0.2 and [is_supported = false]; the
    media identifier is the sniffed type, or ["unknown"] when there is none
    or it is empty.  It has asked the sniffer once and the catalog once. *)
Theorem detect_by_mime_unrecognised env self path_obj t
  (mime_type : option string) :
  fst (sniffer_answer env path_obj) = Returned mime_type ->
  DocumentService.get_extension_from_mime (document_service self) mime_type
  = None ->
  _detect_by_mime env self path_obj t
  = (Returned
       (DetectionResult.mk "mime_content" "unknown"
          (Py.or_else mime_type "unknown") "Type non reconnu par type"
          (2 # 10) false None None),
     (t ++ [snd (sniffer_answer env path_obj);
            ServiceGetExtensionFromMime mime_type])%list).
Proof.
  intros Hs Hm. unfold _detect_by_mime, try_except.
  unfold mbind at 1. unfold M_bind at 1. rewrite sniff_run, Hs.
  unfold_M. rewrite Hm. cbn [Py.truthy]. now rewrite <- app_assoc.
Qed.

(** X10. Over the catalog of [DocumentService()], when the sniffing library
    returns a type the catalog knows, the content classifier answers with
    the extension of that type, the sniffed type, the description of the
    descriptor, the confidence of the sniffing method and
    [is_supported = true]; no fault arises from the catalog. *)
Theorem detect_by_mime_recognised `{Laws : !Py.StrLaws PyStr} env path_obj t
  (mime_type extension : string) :
  let self := {| document_service := DocumentService.init |} in
  fst (sniffer_answer env path_obj) = Returned (Some mime_type) ->
  DocumentService.get_extension_from_mime DocumentService.init
    (Some mime_type) = Some extension ->
  exists doc_type t',
    DocumentService.get_document_type DocumentService.init extension
    = Some doc_type
    /\ _detect_by_mime env self path_obj t
       = (Returned
            (DetectionResult.mk "mime_content" extension mime_type
               (DocumentType.description doc_type) (sniffer_confidence env)
               true None None), t').
Proof.
  intros self Hs Hm.
  pose proof Hm as Hm'.
  apply default_mime_to_extension in Hm' as (doc_type & Hin & _).
  apply default_entries in Hin as (_ & Hl & Hne & Hd & _).
  assert (G : DocumentService.get_document_type DocumentService.init
                extension = Some doc_type).
  { unfold DocumentService.get_document_type. now rewrite Hl. }
  exists doc_type. eexists. split; [exact G |].
  unfold _detect_by_mime, try_except.
  unfold mbind at 1. unfold M_bind at 1. rewrite sniff_run, Hs.
  unfold_M. cbn [document_service self]. rewrite Hm. cbn [Py.truthy].
  apply String.eqb_neq in Hne. rewrite Hne. cbn [negb default]. unfold id.
  rewrite G. reflexivity.
Qed.

(** *** The file probe *)

Lemma categorize_file_size_bucket (size_bytes : Z) :
  _categorize_file_size size_bytes = size_bucket size_bytes.
Proof.
  unfold _categorize_file_size, size_bucket. cbn zeta.
  change 1%Q with (inject_Z 1). change 10%Q with (inject_Z 10).
  change 50%Q with (inject_Z 50).
  now rewrite !ltb_megabytes.
Qed.

(** X11. The file facts the probe returns carry the size the filesystem
    reported and the path [resolve] returned; their size category is the
    bucket of the exact byte count (cut points at 1, 10 and 50 times
    [1024 * 1024] bytes), whatever the rounded megabytes say; their
    extension is the lower-cased suffix, which lower-casing leaves as it
    is.  The probe has called [stat], then [resolve], and nothing else. *)
Theorem extract_file_info_facts `{Laws : !Py.StrLaws PyStr} env path_obj t file_info
  t' :
  _extract_file_info env path_obj t = (Returned file_info, t') ->
  Path_stat_st_size env path_obj = Returned (FileInfo.size_bytes file_info)
  /\ Path_resolve env path_obj = Returned (FileInfo.path file_info)
  /\ FileInfo.size_category file_info
     = size_bucket (FileInfo.size_bytes file_info)
  /\ FileInfo.extension file_info = Py.lower (Path_suffix env path_obj)
  /\ Py.lower (FileInfo.extension file_info) = FileInfo.extension file_info
  /\ t' = (t ++ [PathStat path_obj; PathResolve path_obj])%list.
Proof.
  unfold _extract_file_info. unfold_M.
  destruct (Path_stat_st_size env path_obj) as [size_bytes | e];
    [| discriminate].
  destruct (Path_resolve env path_obj) as [resolved | e]; [| discriminate].
  intros [= <- <-].
  cbn [FileInfo.size_bytes FileInfo.path FileInfo.size_category
         FileInfo.extension].
  repeat split.
  - apply categorize_file_size_bucket.
  - apply Py.lower_idempotent.
  - now rewrite <- app_assoc.
Qed.

(** X12. When the file exists but cannot be measured, the detection returns
    the error outcome carrying the text of the exception after the existence
    test and the [stat] call only; when its canonical path cannot be
    computed, after those two calls and the [resolve] call only.  In both
    cases no catalog query and no sniffing takes place. *)
Theorem probe_failure_stops_detection env self file_path t e :
  Path_exists env file_path = Returned true ->
  (Path_stat_st_size env file_path = Raised e ->
   detect_document_type env self file_path t
   = (Returned
        (DocumentDetectionResult.mk None None None "error"
           (Some ("Erreur lors de l'analyse: " ++ exn_str e))),
      (t ++ [PathExists file_path; PathStat file_path])%list))
  /\ (forall size_bytes,
        Path_stat_st_size env file_path = Returned size_bytes ->
        Path_resolve env file_path = Raised e ->
        detect_document_type env self file_path t
        = (Returned
             (DocumentDetectionResult.mk None None None "error"
                (Some ("Erreur lors de l'analyse: " ++ exn_str e))),
           (t ++ [PathExists file_path; PathStat file_path;
                  PathResolve file_path])%list)).
Proof.
  intros Hx. rewrite detect_document_type_run. cbn zeta. rewrite Hx.
  unfold detect_document_type_try, _extract_file_info. unfold_M. split.
  - intros ->. now rewrite <- app_assoc.
  - intros size_bytes -> ->. now rewrite <- !app_assoc.
Qed.

(** *** The estimates *)

(** X13. For a file of at most 5 MB the estimated time does not depend on
    the size: it is ["~1s"], ["~5s"] or ["~15s"] for an overall complexity
    of low, medium or high. *)
Theorem processing_time_of_small_files (c : ComplexityLevel.t) (size_mb : Q) :
  (size_mb <= 5)%Q ->
  _estimate_processing_time (ComplexityLevel.value c) size_mb
  = match c with
    | ComplexityLevel.LOW => "~1s"
    | ComplexityLevel.MEDIUM => "~5s"
    | ComplexityLevel.HIGH => "~15s"
    end.
Proof.
  intros H.
  assert (F : Py.max 1 (size_mb / 5) = 1%Q).
  { unfold Py.max. replace (Py.gtb (size_mb / 5) 1) with false; [easy |].
    symmetry. apply gtb_le. apply Qle_shift_div_r; [reflexivity | lra]. }
  unfold _estimate_processing_time. cbv zeta. rewrite F.
  destruct c; vm_compute; reflexivity.
Qed.

Lemma memory_factor_positive (file_type : string) :
  let memory_factors : gmap string Z :=
    list_to_map [(".txt", 2); (".docx", 4); (".pdf", 6); (".odt", 5)] in
  0 < default 4 (memory_factors !! file_type).
Proof.
  cbn [list_to_map foldr fst snd uncurry]. cbv zeta.
  rewrite !lookup_insert, lookup_empty.
  repeat case_decide; cbn; lia.
Qed.

(** X14. For any type key, the memory class never decreases when the size
    grows: with the classes ordered low, medium, high, a larger file is
    never given a lower class. *)
Theorem memory_usage_monotone (file_type : string) (size1 size2 : Q) :
  (size1 <= size2)%Q ->
  (memory_rank (_estimate_memory_usage file_type size1)
   <= memory_rank (_estimate_memory_usage file_type size2))%nat.
Proof.
  intros H. unfold _estimate_memory_usage. cbv zeta.
  pose proof (memory_factor_positive file_type) as F. cbv zeta in F.
  set (factor := default 4 _) in *.
  assert (Fq : (0 < inject_Z factor)%Q)
    by (unfold Qlt, inject_Z; cbn; lia).
  assert (M : (size1 * inject_Z factor <= size2 * inject_Z factor)%Q)
    by (apply Qmult_le_compat_r; [exact H | lra]).
  set (e1 := (size1 * inject_Z factor)%Q) in *.
  set (e2 := (size2 * inject_Z factor)%Q) in *.
  destruct (Py.ltb e1 100) eqn:A1; destruct (Py.ltb e2 100) eqn:A2;
    destruct (Py.ltb e1 500) eqn:B1; destruct (Py.ltb e2 500) eqn:B2;
    cbn; try lia;
    repeat match goal with
           | H : Py.ltb _ _ = true |- _ => apply ltb_lt in H
           | H : Py.ltb _ _ = false |- _ => apply ltb_ge in H
           end; lra.
Qed.

Lemma size_derived_complexity_monotone (size1 size2 : Q) :
  (size1 <= size2)%Q ->
  (complexity_rank (size_derived_complexity size1)
   <= complexity_rank (size_derived_complexity size2))%nat.
Proof.
  intros H. unfold size_derived_complexity.
  destruct (Qle_bool 5 size1) eqn:A1; destruct (Qle_bool 5 size2) eqn:A2;
    destruct (Qle_bool 20 size1) eqn:B1; destruct (Qle_bool 20 size2) eqn:B2;
    cbn; try lia;
    repeat match goal with
           | H : Qle_bool _ _ = true |- _ => apply Qle_bool_iff in H
           | H : Qle_bool _ _ = false |- _ =>
               apply not_true_iff_false in H; rewrite Qle_bool_iff in H
           end; lra.
Qed.

(** X15. The overall complexity is never below the intrinsic complexity of
    the type and never decreases when the size grows. *)
Theorem overall_complexity_monotone (c : ComplexityLevel.t) (size1 size2 : Q) :
  (size1 <= size2)%Q ->
  exists overall1 overall2,
    _max_complexity (ComplexityLevel.value c)
      (_estimate_size_complexity size1) = ComplexityLevel.value overall1
    /\ _max_complexity (ComplexityLevel.value c)
         (_estimate_size_complexity size2) = ComplexityLevel.value overall2
    /\ (complexity_rank c <= complexity_rank overall1)%nat
    /\ (complexity_rank overall1 <= complexity_rank overall2)%nat.
Proof.
  intros H. apply size_derived_complexity_monotone in H.
  exists (ordinal_max c (size_derived_complexity size1)),
    (ordinal_max c (size_derived_complexity size2)).
  rewrite !estimate_size_complexity_level, !max_complexity_ordinal.
  repeat split.
  - destruct c, (size_derived_complexity size1); cbn; lia.
  - destruct c, (size_derived_complexity size1),
      (size_derived_complexity size2); cbn in *; lia.
Qed.

(** *** The resolver and the whole detection *)

(** X16. The resolver keeps confidences in range: when both input
    confidences lie between 0 and 1, so does the confidence of the result. *)
Theorem resolve_confidence_in_range
  (ext_detection mime_detection : DetectionResult.t) :
  (0 <= DetectionResult.confidence ext_detection <= 1)%Q ->
  (0 <= DetectionResult.confidence mime_detection <= 1)%Q ->
  (0 <= DetectionResult.confidence
          (_resolve_detection_conflicts ext_detection mime_detection)
   <= 1)%Q.
Proof.
  intros He Hm.
  destruct (Py.gtb (DetectionResult.confidence mime_detection) (7 # 10))
    eqn:Hc.
  2: { rewrite resolve_gate_closed by now left. exact He. }
  destruct (String.eqb_spec (DetectionResult.mime_type mime_detection)
              "error") as [Herr | Herr].
  { rewrite resolve_gate_closed by now right. exact He. }
  rewrite resolve_gate_open by assumption.
  cbn [DetectionResult.confidence].
  destruct (String.eqb _ _); [| exact Hm].
  unfold Py.min.
  destruct (Py.ltb _ 1) eqn:L; [apply ltb_lt in L; lra | lra].
Qed.

(** X17. Without [python-magic] and without [filetype], the content
    classification never passes the gate: whatever [mimetypes] guesses, the
    resolver returns the extension classification with
    [resolution = "extension_fallback"]. *)
Theorem mimetypes_only_is_extension_fallback env self path_obj t
  (ext_detection mime_detection : DetectionResult.t) t' :
  HAS_MAGIC env = false ->
  HAS_FILETYPE env = false ->
  _detect_by_mime env self path_obj t = (Returned mime_detection, t') ->
  _resolve_detection_conflicts ext_detection mime_detection
  = DetectionResult.mk
      (DetectionResult.method ext_detection)
      (DetectionResult.detected_type ext_detection)
      (DetectionResult.mime_type ext_detection)
      (DetectionResult.description ext_detection)
      (DetectionResult.confidence ext_detection)
      (DetectionResult.is_supported ext_detection)
      (Some "extension_fallback")
      (DetectionResult.extension_match ext_detection).
Proof.
  intros Hmagic Hfiletype Hmime.
  destruct (detect_by_mime_returns env self path_obj t)
    as (r & t0 & Hr & Hshape).
  rewrite Hmime in Hr. injection Hr as <- _.
  rewrite resolve_gate_closed; [reflexivity |]. left.
  inversion Hshape as [m x d Hx Hd Hrec | m Hrec | e Hrec];
    cbn [DetectionResult.confidence]; try reflexivity.
  unfold sniffer_confidence. now rewrite Hmagic, Hfiletype.
Qed.

(** A final classification that says supported names a catalog type. *)
Lemma final_supported_in_catalog env self path_obj t1 t1' t2 t2'
  (ext_detection mime_detection : DetectionResult.t) :
  _detect_by_extension env self path_obj t1 = (Returned ext_detection, t1') ->
  _detect_by_mime env self path_obj t2 = (Returned mime_detection, t2') ->
  let final := _resolve_detection_conflicts ext_detection mime_detection in
  DetectionResult.is_supported final = true ->
  is_Some (DocumentService.get_document_type (document_service self)
             (DetectionResult.detected_type final)).
Proof.
  intros Hext Hmime final.
  assert (E : DetectionResult.is_supported ext_detection = true ->
              is_Some (DocumentService.get_document_type
                         (document_service self)
                         (DetectionResult.detected_type ext_detection))).
  { rewrite detect_by_extension_run in Hext. cbn zeta in Hext.
    destruct (DocumentService.get_document_type _ _) eqn:G;
      injection Hext as <- _;
      cbn [DetectionResult.is_supported DetectionResult.detected_type];
      [rewrite G; eauto | discriminate]. }
  subst final.
  destruct (Py.gtb (DetectionResult.confidence mime_detection) (7 # 10))
    eqn:Hc.
  2: { rewrite resolve_gate_closed by now left. exact E. }
  destruct (String.eqb_spec (DetectionResult.mime_type mime_detection)
              "error") as [Herr | Herr].
  { rewrite resolve_gate_closed by now right. exact E. }
  rewrite resolve_gate_open by assumption.
  cbn [DetectionResult.is_supported DetectionResult.detected_type].
  destruct (detect_by_mime_returns env self path_obj t2)
    as (r & t0 & Hr & Hshape).
  rewrite Hmime in Hr. injection Hr as <- _.
  inversion Hshape as [m x d Hx Hd Hrec | m Hrec | e Hrec];
    cbn [DetectionResult.is_supported DetectionResult.detected_type
           sniffing_fault];
    [rewrite Hd; eauto | discriminate | discriminate].
Qed.

(** X18. In every successful outcome the estimate agrees with the
    classification: [can_process] is the [is_supported] of the final
    classification, which carries one of the three resolutions. *)
Theorem success_can_process_iff_supported env self file_path t r t' :
  detect_document_type env self file_path t = (Returned r, t') ->
  DocumentDetectionResult.status r = "success" ->
  exists file_info detection processing,
    r = DocumentDetectionResult.mk (Some file_info) (Some detection)
          (Some processing) "success" None
    /\ ProcessingInfo.can_process processing
       = DetectionResult.is_supported detection
    /\ (DetectionResult.resolution detection = Some "coherent"
        \/ DetectionResult.resolution detection = Some "mime_priority"
        \/ DetectionResult.resolution detection = Some "extension_fallback").
Proof.
  rewrite detect_document_type_run. cbn zeta.
  destruct (Path_exists env file_path) as [[|] | e0];
    [| intros [= <- _]; discriminate | intros [=]].
  destruct (detect_document_type_try _ _ _ _) as [[r0 | e] t0] eqn:T;
    [| intros [= <- _]; discriminate].
  intros [= -> ->] _. unfold detect_document_type_try in T.
  apply bind_inv in T as (file_info & t1 & _ & T).
  apply bind_inv in T as (ext & t2 & Hext & T).
  apply bind_inv in T as (mime & t3 & Hmime & T). cbn zeta in T.
  apply bind_inv in T as (proc & t4 & Hproc & T).
  injection T as <- _. do 3 eexists. split; [reflexivity |]. split.
  - pose proof (final_supported_in_catalog _ _ _ _ _ _ _ _ _ Hext Hmime) as F.
    cbn zeta in F. rewrite generate_processing_info_run in Hproc.
    cbn zeta in Hproc.
    destruct (DetectionResult.is_supported _); [| now injection Hproc as <- _].
    destruct (F eq_refl) as [d Hd]. rewrite Hd in Hproc.
    now injection Hproc as <- _.
  - destruct (Py.gtb (DetectionResult.confidence mime) (7 # 10)) eqn:Hc.
    2: { rewrite resolve_gate_closed by now left. now right; right. }
    destruct (String.eqb_spec (DetectionResult.mime_type mime) "error")
      as [Herr | Herr].
    { rewrite resolve_gate_closed by now right. now right; right. }
    rewrite resolve_gate_open by assumption. cbn.
    destruct (String.eqb _ _); [now left | now right; left].
Qed.

(** X19. When the MIME map sends the sniffed type to an extension the
    catalog no longer holds, the content classifier does not fail: the
    missing descriptor surfaces as the classification of a sniffing fault
    (["unknown"], ["error"], confidence 0) whose description quotes the
    attribute error.  Such a catalog arises when an extension is registered
    under two MIME types in turn and then removed. *)
Theorem detect_by_mime_dangling_mime env self path_obj t
  (mime_type extension : string) :
  fst (sniffer_answer env path_obj) = Returned (Some mime_type) ->
  DocumentService.get_extension_from_mime (document_service self)
    (Some mime_type) = Some extension ->
  extension <> "" ->
  DocumentService.get_document_type (document_service self) extension
  = None ->
  exists t',
    _detect_by_mime env self path_obj t
    = (Returned
         (DetectionResult.mk "mime_content" "unknown" "error"
            "Erreur détection MIME: 'NoneType' object has no attribute 'description'"
            0 false None None), t').
Proof.
  intros Hs Hm Hne Hd. unfold _detect_by_mime, try_except.
  unfold mbind at 1. unfold M_bind at 1. rewrite sniff_run, Hs.
  unfold_M. rewrite Hm. cbn [Py.truthy].
  apply String.eqb_neq in Hne. rewrite Hne. cbn [negb default]. unfold id.
  rewrite Hd. eexists. reflexivity.
Qed.

(** X20. The extension classifier looks at the lower-cased suffix only: two
    paths whose suffixes differ at most by case receive the same
    classification, whose detected type is that lower-cased suffix and whose
    [is_supported] is the catalog accessor's answer for it. *)
Theorem detect_by_extension_ignores_case `{Laws : !Py.StrLaws PyStr} env self path1
  path2 t1 t2 :
  Py.lower (Path_suffix env path1) = Py.lower (Path_suffix env path2) ->
  exists r t1' t2',
    _detect_by_extension env self path1 t1 = (Returned r, t1')
    /\ _detect_by_extension env self path2 t2 = (Returned r, t2')
    /\ DetectionResult.detected_type r = Py.lower (Path_suffix env path1)
    /\ DetectionResult.is_supported r
       = DocumentService.is_supported (document_service self)
           (Path_suffix env path1).
Proof.
  intros H. rewrite !detect_by_extension_run. cbn zeta. rewrite <- H.
  assert (S : DocumentService.is_supported (document_service self)
                (Path_suffix env path1)
              = DocumentService.is_supported (document_service self)
                  (Py.lower (Path_suffix env path1))).
  { unfold DocumentService.is_supported. now rewrite Py.lower_idempotent. }
  rewrite S.
  destruct (DocumentService.get_document_type _ _) as [d |] eqn:G.
  - do 3 eexists. repeat split. symmetry. apply is_supported_true. eauto.
  - do 3 eexists. repeat split. symmetry. now apply is_supported_false.
Qed.

End Properties.

(** ** The builtins on ASCII text

    [Py.ascii_str] satisfies the three facts; the examples below run on
    it. *)

Lemma lower_ascii_idempotent (c : ascii) :
  Py.lower_ascii (Py.lower_ascii c) = Py.lower_ascii c.
Proof. destruct c as [[] [] [] [] [] [] [] []]; reflexivity. Qed.

Lemma ascii_lower_idempotent (s : string) :
  Py.ascii_lower (Py.ascii_lower s) = Py.ascii_lower s.
Proof.
  induction s as [| c s IH]; [reflexivity |].
  cbn [Py.ascii_lower]. now rewrite lower_ascii_idempotent, IH.
Qed.

#[local] Existing Instance Py.ascii_str.

#[local] Instance ascii_str_laws : Py.StrLaws Py.ascii_str.
Proof.
  split.
  - exact ascii_lower_idempotent.
  - reflexivity.
  - intros s. eexists. reflexivity.
Qed.

(** ** Examples: each statement at a concrete input *)

Lemma resolve_extension_fallback_witness :
  let ext := DetectionResult.mk "extension" ".txt" "text/plain"
               "Plain Text File" (7 # 10) true None None in
  let mime := DetectionResult.mk "mime_content" ".txt" "text/plain"
                "Plain Text File" (6 # 10) true None None in
  DetectionResult.detected_type ext = DetectionResult.detected_type mime
  /\ _resolve_detection_conflicts ext mime
     = DetectionResult.mk "extension" ".txt" "text/plain" "Plain Text File"
         (7 # 10) true (Some "extension_fallback") None.
Proof.
  intros ext mime. split; [reflexivity |].
  refine (proj1 (resolve_extension_fallback ext mime _)).
  left. vm_compute. discriminate.
Defined.

Lemma resolve_mime_priority_witness :
  _resolve_detection_conflicts renamed_ext renamed_mime
  = DetectionResult.mk "mime_content" ".txt" "text/plain" "Plain Text File"
      (9 # 10) true (Some "mime_priority") (Some false).
Proof.
  apply (resolve_mime_priority renamed_ext renamed_mime).
  - reflexivity.
  - discriminate.
  - discriminate.
Defined.

(** C3 as the specification words it fails: on the renamed text file the
    gate is open and the types differ, yet the resolution is not the string
    ["content_priority"]. *)
Lemma resolve_content_priority_counterexample :
  (7 # 10 < DetectionResult.confidence renamed_mime)%Q
  /\ DetectionResult.mime_type renamed_mime <> "error"
  /\ DetectionResult.detected_type renamed_ext
     <> DetectionResult.detected_type renamed_mime
  /\ DetectionResult.resolution
       (_resolve_detection_conflicts renamed_ext renamed_mime)
     <> Some "content_priority".
Proof.
  split; [reflexivity |]. repeat split; vm_compute; discriminate.
Qed.

Lemma resolve_coherent_witness :
  DetectionResult.confidence notes_ext = 7 # 10
  /\ _resolve_detection_conflicts notes_ext notes_mime
     = DetectionResult.mk "mime_content" ".txt" "text/plain" "Plain Text File"
         (Py.min 1 ((7 # 10) + (9 # 10))) true (Some "coherent") (Some true).
Proof.
  refine (let H := resolve_coherent example_env example_detector
                     "notes.txt" "notes.txt" [] _ [] _ notes_ext notes_mime
                     _ _ _ _ _ in
          conj (proj1 H) (proj1 (proj2 H))).
  - reflexivity.
  - reflexivity.
  - reflexivity.
  - discriminate.
  - reflexivity.
Defined.

Lemma coherent_confidence_is_one_witness :
  DetectionResult.confidence
    (_resolve_detection_conflicts notes_ext notes_mime) = 1%Q.
Proof.
  refine (proj1 (coherent_confidence_is_one example_env
                   "notes.txt" "notes.txt" [] _ [] _ notes_ext notes_mime
                   _ _ _)).
  - reflexivity.
  - reflexivity.
  - reflexivity.
Defined.

Lemma processing_info_support_witness :
  (exists t',
     _generate_processing_info example_detector xyz_detection small_file_info
       []
     = (Returned
          (ProcessingInfo.mk false None None None None
             (Some "Type de fichier non supporté")), t'))
  /\ (exists p t',
        _generate_processing_info example_detector notes_mime small_file_info
          []
        = (Returned p, t')
        /\ ProcessingInfo.can_process p = true
        /\ ProcessingInfo.recommended_parser p = Some "built-in"
        /\ ProcessingInfo.reason p = None).
Proof.
  split.
  - apply (proj1 (processing_info_support example_detector xyz_detection
                    small_file_info [])).
    left. reflexivity.
  - apply (proj2 (processing_info_support example_detector notes_mime
                    small_file_info [])
             (DocumentType.mk ".txt" "text/plain" "Plain Text File" "built-in"
                ComplexityLevel.LOW)).
    + reflexivity.
    + reflexivity.
Defined.

(** C8 as the specification words it fails: for the unsupported [.xyz]
    classification the estimate is not the one whose reason is the string
    ["unsupported type"]. *)
Lemma processing_reason_counterexample :
  DetectionResult.is_supported xyz_detection = false
  /\ fst (run (_generate_processing_info example_detector xyz_detection
                 small_file_info))
     <> Returned
          (ProcessingInfo.mk false None None None None
             (Some "unsupported type")).
Proof. split; [reflexivity |]. vm_compute. discriminate. Qed.

(** C9. For a supported final type, the overall complexity of the estimate
    is the larger, on the scale LOW < MEDIUM < HIGH, of the catalog's
    intrinsic complexity and the size-derived one (below 5 MB LOW, below
    20 MB MEDIUM, otherwise HIGH); when the size-derived one is not larger,
    it is the catalog's value. *)
Theorem overall_complexity_is_ordinal_max self detection file_info t doc_type :
  DetectionResult.is_supported detection = true ->
  DocumentService.get_document_type (document_service self)
    (DetectionResult.detected_type detection) = Some doc_type ->
  let intrinsic := DocumentType.complexity doc_type in
  let size_derived := size_derived_complexity (FileInfo.size_mb file_info) in
  exists p t',
    _generate_processing_info self detection file_info t = (Returned p, t')
    /\ ProcessingInfo.complexity p
       = Some (ComplexityLevel.value (ordinal_max intrinsic size_derived))
    /\ ((complexity_rank size_derived <= complexity_rank intrinsic)%nat ->
        ProcessingInfo.complexity p = Some (ComplexityLevel.value intrinsic)).
Proof.
  intros Hs Hd intrinsic size_derived.
  rewrite generate_processing_info_run. cbn zeta. rewrite Hs, Hd.
  do 2 eexists. split; [reflexivity |]. cbn [ProcessingInfo.complexity].
  rewrite estimate_size_complexity_level. split.
  - now rewrite max_complexity_ordinal.
  - intros H. now rewrite max_complexity_tie.
Qed.

Lemma overall_complexity_is_ordinal_max_witness :
  exists p t',
    _generate_processing_info example_detector notes_mime small_file_info []
    = (Returned p, t')
    /\ ProcessingInfo.complexity p = Some "low".
Proof.
  destruct (overall_complexity_is_ordinal_max example_detector notes_mime
              small_file_info []
              (DocumentType.mk ".txt" "text/plain" "Plain Text File"
                 "built-in" ComplexityLevel.LOW) eq_refl eq_refl)
    as (p & t' & H & C & _).
  exists p, t'. split; [exact H | exact C].
Defined.

Lemma missing_path_is_an_error_witness :
  run (detect_document_type example_env example_detector "a/missing.pdf")
  = (Returned
       (DocumentDetectionResult.mk None None None "error"
          (Some "Fichier non trouvé:a/missing.pdf")),
     [PathExists "a/missing.pdf"]).
Proof.
  apply (missing_path_is_an_error example_env example_detector
           "a/missing.pdf" []).
  reflexivity.
Defined.

Lemma sniffing_fault_is_recovered_witness :
  run (_detect_by_mime example_env example_detector "locked.pdf")
  = (Returned
       (DetectionResult.mk "mime_content" "unknown" "error"
          "Erreur détection MIME: [Errno 13] Permission denied" 0 false
          None None),
     [MagicFromFile "locked.pdf"])
  /\ exists r t',
       run (detect_document_type example_env example_detector "locked.pdf")
       = (Returned r, t')
       /\ DocumentDetectionResult.status r = "success".
Proof.
  pose proof (sniffing_fault_is_recovered example_env example_detector
                "locked.pdf" []
                (Exception "PermissionError" "[Errno 13] Permission denied")
                eq_refl) as (H1 & _ & H3).
  split; [exact H1 |].
  destruct (H3 20971 "/data/locked.pdf" eq_refl eq_refl eq_refl)
    as (r & t' & _ & _ & _ & H & _ & S & _).
  exists r, t'. split; [exact H | exact S].
Defined.

Lemma validate_normal_form_witness :
  DocumentType.extension
    (DocumentType.mk ".md" "text/markdown" "Markdown" "markdown"
       ComplexityLevel.LOW)
  = Py.lower ".MD".
Proof.
  apply (validate_normal_form
           (DocumentType.mk ".MD" "text/markdown" "Markdown" "markdown"
              ComplexityLevel.LOW)
           (DocumentType.mk ".md" "text/markdown" "Markdown" "markdown"
              ComplexityLevel.LOW)).
  reflexivity.
Defined.

Lemma add_then_lookup_witness :
  DocumentService.get_document_type
    (add_document_type DocumentService.init md_type) ".Md"
  = Some md_type.
Proof.
  refine (proj1 (proj2 (add_then_lookup DocumentService.init
                          (DocumentType.mk ".MD" "text/markdown" "Markdown"
                             "markdown" ComplexityLevel.LOW)
                          md_type ".Md" _ _))).
  - reflexivity.
  - reflexivity.
Defined.

Lemma add_keeps_others_witness :
  DocumentService.get_document_type
    (add_document_type DocumentService.init md_type) ".PDF"
  = DocumentService.get_document_type DocumentService.init ".PDF".
Proof.
  apply (proj1 (add_keeps_others DocumentService.init md_type ".PDF" "")).
  discriminate.
Defined.

Lemma remove_unknown_extension_witness :
  remove_document_type DocumentService.init ".xyz"
  = (DocumentService.init, Returned false).
Proof.
  apply (remove_unknown_extension DocumentService.init ".xyz"). reflexivity.
Defined.

Lemma remove_after_add_witness :
  remove_document_type (add_document_type DocumentService.init md_type) ".md"
  = (DocumentService.init, Returned true).
Proof.
  apply (remove_after_add DocumentService.init md_type md_type);
    reflexivity.
Defined.

Lemma remove_raises_key_error_witness :
  let registered :=
    add_document_type (add_document_type DocumentService.init md_type)
      markdown_type in
  let after_first := fst (remove_document_type registered ".markdown") in
  snd (remove_document_type registered ".markdown") = Returned true
  /\ exists self',
       remove_document_type after_first ".md"
       = (self', Raised (Exception "KeyError" "'text/markdown'")).
Proof.
  intros registered after_first. split; [reflexivity |].
  destruct (remove_raises_key_error (PyStr := Py.ascii_str) after_first
              ".md" md_type eq_refl eq_refl)
    as (self' & H & _).
  exists self'. exact H.
Defined.

Lemma remove_known_extension_witness :
  exists self',
    remove_document_type DocumentService.init ".PDF" = (self', Returned true)
    /\ DocumentService.is_supported self' ".PDF" = false.
Proof.
  destruct (remove_known_extension (PyStr := Py.ascii_str) DocumentService.init ".PDF"
              (DocumentType.mk ".pdf" "application/pdf" "PDF Document"
                 "pdfplumber" ComplexityLevel.HIGH) ".pdf" eq_refl eq_refl)
    as (self' & H & S & _).
  exists self'. split; [exact H | exact S].
Defined.

Lemma default_catalog_inverse_witness :
  exists doc_type,
    DocumentService.get_document_type DocumentService.init ".pdf"
    = Some doc_type
    /\ DocumentType.mime_type doc_type = "application/pdf".
Proof.
  apply (proj2 default_catalog_inverse "application/pdf" ".pdf").
  reflexivity.
Defined.

Lemma detect_by_mime_unrecognised_witness :
  run (_detect_by_mime mimetypes_env example_detector "archive.xyz")
  = (Returned
       (DetectionResult.mk "mime_content" "unknown" "unknown"
          "Type non reconnu par type" (2 # 10) false None None),
     [MimetypesGuessType "archive.xyz"; ServiceGetExtensionFromMime None]).
Proof.
  apply (detect_by_mime_unrecognised mimetypes_env example_detector
           "archive.xyz" [] None); reflexivity.
Defined.

Lemma detect_by_mime_recognised_witness :
  exists doc_type t',
    DocumentService.get_document_type DocumentService.init ".txt"
    = Some doc_type
    /\ run (_detect_by_mime example_env example_detector "report.docx")
       = (Returned
            (DetectionResult.mk "mime_content" ".txt" "text/plain"
               (DocumentType.description doc_type) (9 # 10) true None None),
          t').
Proof.
  apply (detect_by_mime_recognised example_env "report.docx" []
           "text/plain" ".txt"); reflexivity.
Defined.

Lemma probe_failure_stops_detection_witness :
  run (detect_document_type example_env example_detector "vanished.pdf")
  = (Returned
       (DocumentDetectionResult.mk None None None "error"
          (Some "Erreur lors de l'analyse: [Errno 2] No such file or directory")),
     [PathExists "vanished.pdf"; PathStat "vanished.pdf"])
  /\ run (detect_document_type looping_env example_detector "loop.pdf")
     = (Returned
          (DocumentDetectionResult.mk None None None "error"
             (Some "Erreur lors de l'analyse: Symlink loop")),
        [PathExists "loop.pdf"; PathStat "loop.pdf"; PathResolve "loop.pdf"]).
Proof.
  split.
  - apply (proj1 (probe_failure_stops_detection example_env example_detector
                    "vanished.pdf" []
                    (Exception "FileNotFoundError"
                       "[Errno 2] No such file or directory") eq_refl)).
    reflexivity.
  - apply (proj2 (probe_failure_stops_detection looping_env example_detector
                    "loop.pdf" [] (Exception "RuntimeError" "Symlink loop")
                    eq_refl) 20971); reflexivity.
Defined.

Lemma processing_time_of_small_files_witness :
  _estimate_processing_time "high" (2 # 100) = "~15s".
Proof.
  apply (processing_time_of_small_files ComplexityLevel.HIGH (2 # 100)).
  vm_compute. discriminate.
Defined.

Lemma memory_usage_monotone_witness :
  (memory_rank (_estimate_memory_usage ".pdf" 10)
   <= memory_rank (_estimate_memory_usage ".pdf" 20))%nat.
Proof.
  apply (memory_usage_monotone ".pdf" 10 20). vm_compute. discriminate.
Defined.

Lemma overall_complexity_monotone_witness :
  exists overall1 overall2,
    _max_complexity "medium" (_estimate_size_complexity 1)
    = ComplexityLevel.value overall1
    /\ _max_complexity "medium" (_estimate_size_complexity 30)
       = ComplexityLevel.value overall2
    /\ (complexity_rank overall1 <= complexity_rank overall2)%nat.
Proof.
  destruct (overall_complexity_monotone ComplexityLevel.MEDIUM 1 30)
    as (o1 & o2 & H1 & H2 & _ & H3).
  - vm_compute. discriminate.
  - exists o1, o2. repeat split; assumption.
Defined.

Lemma resolve_confidence_in_range_witness :
  (0 <= DetectionResult.confidence
          (_resolve_detection_conflicts notes_ext notes_mime) <= 1)%Q.
Proof.
  apply (resolve_confidence_in_range notes_ext notes_mime);
    split; vm_compute; discriminate.
Defined.

Lemma mimetypes_only_is_extension_fallback_witness :
  _resolve_detection_conflicts notes_ext
    (DetectionResult.mk "mime_content" ".txt" "text/plain" "Plain Text File"
       (6 # 10) true None None)
  = DetectionResult.mk "extension" ".txt" "text/plain" "Plain Text File"
      (7 # 10) true (Some "extension_fallback") None.
Proof.
  refine (mimetypes_only_is_extension_fallback mimetypes_env example_detector
            "notes.txt" [] notes_ext _ _ eq_refl eq_refl _).
  vm_compute. reflexivity.
Defined.

Lemma success_can_process_iff_supported_witness :
  exists file_info detection processing,
    fst (run (detect_document_type example_env example_detector
                "report.docx"))
    = Returned
        (DocumentDetectionResult.mk (Some file_info) (Some detection)
           (Some processing) "success" None)
    /\ ProcessingInfo.can_process processing
       = DetectionResult.is_supported detection.
Proof.
  destruct (success_can_process_iff_supported example_env example_detector
              "report.docx" []
              (match fst (run (detect_document_type example_env
                                 example_detector "report.docx")) with
               | Returned r => r
               | Raised _ => error_outcome ""
               end)
              (snd (run (detect_document_type example_env example_detector
                           "report.docx"))))
    as (fi & d & p & H & C & _).
  - vm_compute. reflexivity.
  - vm_compute. reflexivity.
  - exists fi, d, p. split; [| exact C].
    rewrite <- H. vm_compute. reflexivity.
Defined.

Lemma detect_by_mime_dangling_mime_witness :
  exists t',
    run (_detect_by_mime markdown_env
           {| document_service := dangling_service |} "readme.md")
    = (Returned
         (DetectionResult.mk "mime_content" "unknown" "error"
            "Erreur détection MIME: 'NoneType' object has no attribute 'description'"
            0 false None None), t').
Proof.
  apply (detect_by_mime_dangling_mime markdown_env
           {| document_service := dangling_service |} "readme.md" []
           "text/markdown" ".md").
  - reflexivity.
  - reflexivity.
  - discriminate.
  - reflexivity.
Defined.

Lemma detect_by_extension_ignores_case_witness :
  exists r t1' t2',
    run (_detect_by_extension example_env example_detector "Report.PDF")
    = (Returned r, t1')
    /\ run (_detect_by_extension example_env example_detector "a/b.pdf")
       = (Returned r, t2')
    /\ DetectionResult.detected_type r = ".pdf".
Proof.
  destruct (detect_by_extension_ignores_case (PyStr := Py.ascii_str) example_env example_detector
              "Report.PDF" "a/b.pdf" [] [] eq_refl)
    as (r & t1' & t2' & H1 & H2 & D & _).
  exists r, t1', t2'. repeat split; assumption.
Defined.

Lemma existence_test_fault_escapes_witness :
  Path_exists example_env long_name
  = Raised (Exception "OSError"
              ("[Errno 36] File name too long: '" ++ long_name ++ "'"))
  /\ run (detect_document_type example_env example_detector long_name)
     = (Raised (Exception "OSError"
                  ("[Errno 36] File name too long: '" ++ long_name ++ "'")),
        [PathExists long_name]).
Proof.
  split; [reflexivity |].
  apply (existence_test_fault_escapes example_env example_detector long_name
           []).
  reflexivity.
Defined.

Lemma detect_raises_iff_existence_test_raises_witness :
  exists e t',
    run (detect_document_type example_env example_detector
           "/private/report.pdf")
    = (Raised e, t').
Proof.
  apply (proj2 (proj1 (detect_raises_iff_existence_test_raises example_env
                         example_detector "/private/report.pdf" []))).
  eexists. reflexivity.
Defined.

Lemma extract_file_info_facts_witness :
  FileInfo.size_category
    (FileInfo.mk "/data/Notes.TXT" "Notes.TXT" "Notes" ".txt" 20971
       (Py.round2 (inject_Z 20971 / inject_Z (1024 * 1024))) "small")
  = size_bucket 20971.
Proof.
  refine (proj1 (proj2 (proj2
            (extract_file_info_facts example_env "Notes.TXT" []
               (FileInfo.mk "/data/Notes.TXT" "Notes.TXT" "Notes" ".txt"
                  20971 (Py.round2 (inject_Z 20971 / inject_Z (1024 * 1024)))
                  "small")
               [PathStat "Notes.TXT"; PathResolve "Notes.TXT"] _)))).
  vm_compute. reflexivity.
Defined.
